(** * Fizz server format config and Float resources: a shallow embedding

    This development embeds the server-side HTML emission code of
    [packages/react-dom-bindings/src/server/ReactDOMServerFormatConfig.js]
    and the resource registry of
    [packages/react-dom-bindings/src/server/ReactDOMFloatServer.js]
    and proves properties of the emitted chunk sequences.

    Conventions.
    - A JavaScript string is the list of its UTF-16 code units.
    - A chunk is the value handed to [writeChunk]; the destination is the
      sequence of chunks written to it, in order.
    - Functions that mutate the response state, the resources or the
      destination are written in a small writer/state/exception monad.
    - Modules that the sources import but that are not part of the
      verified files (text escaping, the attribute serializer tables,
      [JSON.stringify], the inline instruction scripts) are the methods
      of the [Host] class. *)

From Stdlib Require Import NArith Ascii String List Lia Bool.
From Stdlib Require Import HexadecimalString.
From stdpp Require Import base gmap list strings.

Local Open Scope string_scope.
Local Open Scope N_scope.
Local Open Scope list_scope.
Local Set Warnings "-register-all".

(* ================================================================== *)
(** * JavaScript values *)
(* ================================================================== *)

Module JS.

(** UTF-16 code units. *)
Abbreviation jsstring := (list N).

(** An ASCII literal as a JavaScript string. *)
Definition js (s : string) : jsstring :=
  map N_of_ascii (list_ascii_of_string s).

#[global] Arguments js : simpl never.

Definition jseqb (a b : jsstring) : bool := bool_decide (a = b).

Inductive JsValue : Type :=
| VUndefined
| VNull
| VBool (b : bool)
| VNumber (n : Z)
| VString (s : jsstring)
| VObject (fields : list (jsstring * JsValue))
| VArray (items : list JsValue)
| VFunction
| VSymbol.

(** [!!v] *)
Definition truthy (v : JsValue) : bool :=
  match v with
  | VUndefined | VNull => false
  | VBool b => b
  | VNumber n => negb (Z.eqb n 0)
  | VString s => match s with [] => false | _ => true end
  | VObject _ | VArray _ | VFunction | VSymbol => true
  end.

(** [v == null] *)
Definition nullish (v : JsValue) : bool :=
  match v with VUndefined | VNull => true | _ => false end.

(** [typeof v === 'string'] *)
Definition isString (v : JsValue) : bool :=
  match v with VString _ => true | _ => false end.

(** An object literal: own enumerable string keys in insertion order. *)
Abbreviation Props := (list (jsstring * JsValue)).

Fixpoint getProp (props : Props) (key : jsstring) : JsValue :=
  match props with
  | [] => VUndefined
  | (k, v) :: rest => if jseqb k key then v else getProp rest key
  end.

Fixpoint hasProp (props : Props) (key : jsstring) : bool :=
  match props with
  | [] => false
  | (k, _) :: rest => jseqb k key || hasProp rest key
  end.

(** [props[key] = v]: an existing key keeps its position. *)
Fixpoint setProp (props : Props) (key : jsstring) (v : JsValue) : Props :=
  match props with
  | [] => [(key, v)]
  | (k, w) :: rest =>
      if jseqb k key then (k, v) :: rest else (k, w) :: setProp rest key v
  end.

(** [delete props[key]] *)
Definition deleteProp (props : Props) (key : jsstring) : Props :=
  filter (fun kv => negb (jseqb (fst kv) key)) props.

(** ** [String.prototype.replace] with a global regular expression

    [exec s] attempts a match anchored at the head of [s] and returns the
    replacement text together with the input that follows the match.  All
    the expressions used below match at least one code unit, so the
    remaining input is strictly shorter; [fuel] bounds the number of
    steps by the length of the subject. *)

Definition Exec := jsstring -> option (jsstring * jsstring).

Fixpoint replace_from (fuel : nat) (exec : Exec) (s : jsstring) : jsstring :=
  match fuel with
  | O => s
  | S fuel' =>
      match s with
      | [] => []
      | c :: rest =>
          match exec s with
          | Some (replacement, after) =>
              replacement ++ replace_from fuel' exec after
          | None => c :: replace_from fuel' exec rest
          end
      end
  end.

Definition replaceAll (exec : Exec) (s : jsstring) : jsstring :=
  replace_from (length s) exec s.

(** A matcher consumes input when what it leaves is shorter than what it
    was given. *)
Definition consuming (exec : Exec) : Prop :=
  forall s r after, exec s = Some (r, after) -> (length after < length s)%nat.

(** Case-insensitive comparison of a code unit with a lower-case ASCII
    letter of the pattern.  Without the [u] flag a code unit above 127 is
    never canonicalized to an ASCII letter, so only the two ASCII casings
    match. *)
Definition matchLetter (lower c : N) : bool :=
  (c =? lower) || (c =? lower - 32).

Fixpoint matchLetters (pat s : jsstring) : bool :=
  match pat with
  | [] => true
  | p :: pat' =>
      match s with
      | [] => false
      | c :: s' => matchLetter p c && matchLetters pat' s'
      end
  end.

End JS.

Export JS.

(* ================================================================== *)
(** * Chunks and the destination
      (react-server/src/ReactServerStreamConfigBrowser.js) *)
(* ================================================================== *)

(** A chunk is a [Uint8Array] holding the encoding of a string.  The
    module-level constants [const x = stringToPrecomputedChunk('...')] are
    objects created once; they are identified by the name of the constant.
    Chunks encoded while a response is produced carry their text only. *)
Inductive Chunk : Type :=
| Precomputed (ident : string) (content : jsstring)
| Encoded (content : jsstring).

Definition stringToChunk (content : jsstring) : Chunk := Encoded content.
Definition stringToPrecomputedChunk (content : jsstring) : Chunk :=
  Encoded content.
(** Modelled from the spec: [clonePrecomputedChunk] is imported from the
    stream config but is not defined in the sources; the helper body it
    copies is written as it is (one-shot function inlining, section 4.4). *)
Definition clonePrecomputedChunk (c : Chunk) : Chunk := c.

Definition chunkText (c : Chunk) : jsstring :=
  match c with
  | Precomputed _ content => content
  | Encoded content => content
  end.

(** The text of a sequence of chunks, concatenated. *)
Definition textOf (cs : list Chunk) : jsstring :=
  concat (map chunkText cs).

#[global] Instance Chunk_eq_dec : EqDecision Chunk.
Proof. solve_decision. Defined.

(* ================================================================== *)
(** * Imported modules that are not part of the verified sources *)
(* ================================================================== *)

Class Host : Type := {
  (** [__DEV__] *)
  DEV : bool;
  (** [./escapeTextForBrowser] *)
  escapeTextForBrowser : jsstring -> jsstring;
  (** [JSON.stringify] on a string *)
  JSON_stringify : jsstring -> jsstring;
  (** [String.prototype.toLowerCase] *)
  toLowerCase : jsstring -> jsstring;
  (** ['' + value]; [None] when the coercion throws *)
  stringCoercion : JsValue -> option jsstring;
  (** [../shared/DOMProperty] *)
  isAttributeNameSafe : jsstring -> bool;
  (** [../shared/sanitizeURL]; [false] when it throws *)
  sanitizeURL : jsstring -> bool;
  (** The chunks that [pushAttribute(target, responseState, name, value)]
      appends to [target], or [None] when it throws.  Its body is driven
      by the property tables of [../shared/DOMProperty] and
      [../shared/CSSProperty]. *)
  pushAttribute : jsstring -> JsValue -> option (list Chunk);
  (** [./fizz-instruction-set/ReactDOMFizzInstructionSetInlineCodeStrings] *)
  clientRenderFunctionString : jsstring;
  completeBoundaryFunctionString : jsstring;
  completeContainerFunctionString : jsstring;
  styleInsertionFunctionString : jsstring;
  completeSegmentFunctionString : jsstring
}.

(** Modelled from the spec: [shared/ReactFeatureFlags] is not among the
    sources.  The spec describes the build in which resources are hoisted
    and in which both streaming formats exist, that is, with [enableFloat]
    and [enableFizzExternalRuntime] switched on. *)
Definition enableFloat : bool := true.

(** Modelled from the spec: the second flag of [shared/ReactFeatureFlags]
    read by the format config; the spec has both the script and the data
    streaming format, which exist only when it is on. *)
Definition enableFizzExternalRuntime : bool := true.

(* ================================================================== *)
(** * Response state (ReactDOMServerFormatConfig.js) *)
(* ================================================================== *)

Definition ScriptStreamingFormat : N := 0.
Definition DataStreamingFormat : N := 1.

(** [DocumentStructureTag] bit flags. *)
Definition NONE : N := 0.
Definition HTML : N := 1.
Definition HEAD : N := 2.
Definition BODY : N := 4.
Definition HTML_HEAD_OR_BODY : N := 7.
Definition FLOW : N := 8.

Record BootstrapScriptDescriptor : Type := {
  src : jsstring;
  integrity : option jsstring
}.

(** Per response, global state that is not contextual to the rendering
    subtree. *)
Record ResponseState : Type := {
  bootstrapChunks : list Chunk;
  fallbackBootstrapChunks : option (list Chunk);
  htmlChunks : list Chunk;
  headChunks : list Chunk;
  requiresEmbedding : bool;
  rendered : N;
  flushed : N;
  charsetChunks : list Chunk;
  hoistableChunks : list Chunk;
  placeholderPrefix : Chunk;
  segmentPrefix : Chunk;
  boundaryPrefix : jsstring;
  containerBoundaryID : option Chunk;
  idPrefix : jsstring;
  nextSuspenseID : N;
  streamingFormat : N;
  startInlineScript : Chunk;
  sentCompleteSegmentFunction : bool;
  sentCompleteBoundaryFunction : bool;
  sentCompleteContainerFunction : bool;
  sentClientRenderFunction : bool;
  sentStyleInsertionFunction : bool;
  externalRuntimeConfig : option BootstrapScriptDescriptor
}.

(** Field assignments [responseState.f = v]. *)
Definition set_bootstrapChunks (v : list Chunk) (r : ResponseState) : ResponseState :=
  {| bootstrapChunks := v;
     fallbackBootstrapChunks := fallbackBootstrapChunks r;
     htmlChunks := htmlChunks r;
     headChunks := headChunks r;
     requiresEmbedding := requiresEmbedding r;
     rendered := rendered r;
     flushed := flushed r;
     charsetChunks := charsetChunks r;
     hoistableChunks := hoistableChunks r;
     placeholderPrefix := placeholderPrefix r;
     segmentPrefix := segmentPrefix r;
     boundaryPrefix := boundaryPrefix r;
     containerBoundaryID := containerBoundaryID r;
     idPrefix := idPrefix r;
     nextSuspenseID := nextSuspenseID r;
     streamingFormat := streamingFormat r;
     startInlineScript := startInlineScript r;
     sentCompleteSegmentFunction := sentCompleteSegmentFunction r;
     sentCompleteBoundaryFunction := sentCompleteBoundaryFunction r;
     sentCompleteContainerFunction := sentCompleteContainerFunction r;
     sentClientRenderFunction := sentClientRenderFunction r;
     sentStyleInsertionFunction := sentStyleInsertionFunction r;
     externalRuntimeConfig := externalRuntimeConfig r |}.

Definition set_htmlChunks (v : list Chunk) (r : ResponseState) : ResponseState :=
  {| bootstrapChunks := bootstrapChunks r;
     fallbackBootstrapChunks := fallbackBootstrapChunks r;
     htmlChunks := v;
     headChunks := headChunks r;
     requiresEmbedding := requiresEmbedding r;
     rendered := rendered r;
     flushed := flushed r;
     charsetChunks := charsetChunks r;
     hoistableChunks := hoistableChunks r;
     placeholderPrefix := placeholderPrefix r;
     segmentPrefix := segmentPrefix r;
     boundaryPrefix := boundaryPrefix r;
     containerBoundaryID := containerBoundaryID r;
     idPrefix := idPrefix r;
     nextSuspenseID := nextSuspenseID r;
     streamingFormat := streamingFormat r;
     startInlineScript := startInlineScript r;
     sentCompleteSegmentFunction := sentCompleteSegmentFunction r;
     sentCompleteBoundaryFunction := sentCompleteBoundaryFunction r;
     sentCompleteContainerFunction := sentCompleteContainerFunction r;
     sentClientRenderFunction := sentClientRenderFunction r;
     sentStyleInsertionFunction := sentStyleInsertionFunction r;
     externalRuntimeConfig := externalRuntimeConfig r |}.

Definition set_headChunks (v : list Chunk) (r : ResponseState) : ResponseState :=
  {| bootstrapChunks := bootstrapChunks r;
     fallbackBootstrapChunks := fallbackBootstrapChunks r;
     htmlChunks := htmlChunks r;
     headChunks := v;
     requiresEmbedding := requiresEmbedding r;
     rendered := rendered r;
     flushed := flushed r;
     charsetChunks := charsetChunks r;
     hoistableChunks := hoistableChunks r;
     placeholderPrefix := placeholderPrefix r;
     segmentPrefix := segmentPrefix r;
     boundaryPrefix := boundaryPrefix r;
     containerBoundaryID := containerBoundaryID r;
     idPrefix := idPrefix r;
     nextSuspenseID := nextSuspenseID r;
     streamingFormat := streamingFormat r;
     startInlineScript := startInlineScript r;
     sentCompleteSegmentFunction := sentCompleteSegmentFunction r;
     sentCompleteBoundaryFunction := sentCompleteBoundaryFunction r;
     sentCompleteContainerFunction := sentCompleteContainerFunction r;
     sentClientRenderFunction := sentClientRenderFunction r;
     sentStyleInsertionFunction := sentStyleInsertionFunction r;
     externalRuntimeConfig := externalRuntimeConfig r |}.

Definition set_rendered (v : N) (r : ResponseState) : ResponseState :=
  {| bootstrapChunks := bootstrapChunks r;
     fallbackBootstrapChunks := fallbackBootstrapChunks r;
     htmlChunks := htmlChunks r;
     headChunks := headChunks r;
     requiresEmbedding := requiresEmbedding r;
     rendered := v;
     flushed := flushed r;
     charsetChunks := charsetChunks r;
     hoistableChunks := hoistableChunks r;
     placeholderPrefix := placeholderPrefix r;
     segmentPrefix := segmentPrefix r;
     boundaryPrefix := boundaryPrefix r;
     containerBoundaryID := containerBoundaryID r;
     idPrefix := idPrefix r;
     nextSuspenseID := nextSuspenseID r;
     streamingFormat := streamingFormat r;
     startInlineScript := startInlineScript r;
     sentCompleteSegmentFunction := sentCompleteSegmentFunction r;
     sentCompleteBoundaryFunction := sentCompleteBoundaryFunction r;
     sentCompleteContainerFunction := sentCompleteContainerFunction r;
     sentClientRenderFunction := sentClientRenderFunction r;
     sentStyleInsertionFunction := sentStyleInsertionFunction r;
     externalRuntimeConfig := externalRuntimeConfig r |}.

Definition set_flushed (v : N) (r : ResponseState) : ResponseState :=
  {| bootstrapChunks := bootstrapChunks r;
     fallbackBootstrapChunks := fallbackBootstrapChunks r;
     htmlChunks := htmlChunks r;
     headChunks := headChunks r;
     requiresEmbedding := requiresEmbedding r;
     rendered := rendered r;
     flushed := v;
     charsetChunks := charsetChunks r;
     hoistableChunks := hoistableChunks r;
     placeholderPrefix := placeholderPrefix r;
     segmentPrefix := segmentPrefix r;
     boundaryPrefix := boundaryPrefix r;
     containerBoundaryID := containerBoundaryID r;
     idPrefix := idPrefix r;
     nextSuspenseID := nextSuspenseID r;
     streamingFormat := streamingFormat r;
     startInlineScript := startInlineScript r;
     sentCompleteSegmentFunction := sentCompleteSegmentFunction r;
     sentCompleteBoundaryFunction := sentCompleteBoundaryFunction r;
     sentCompleteContainerFunction := sentCompleteContainerFunction r;
     sentClientRenderFunction := sentClientRenderFunction r;
     sentStyleInsertionFunction := sentStyleInsertionFunction r;
     externalRuntimeConfig := externalRuntimeConfig r |}.

Definition set_charsetChunks (v : list Chunk) (r : ResponseState) : ResponseState :=
  {| bootstrapChunks := bootstrapChunks r;
     fallbackBootstrapChunks := fallbackBootstrapChunks r;
     htmlChunks := htmlChunks r;
     headChunks := headChunks r;
     requiresEmbedding := requiresEmbedding r;
     rendered := rendered r;
     flushed := flushed r;
     charsetChunks := v;
     hoistableChunks := hoistableChunks r;
     placeholderPrefix := placeholderPrefix r;
     segmentPrefix := segmentPrefix r;
     boundaryPrefix := boundaryPrefix r;
     containerBoundaryID := containerBoundaryID r;
     idPrefix := idPrefix r;
     nextSuspenseID := nextSuspenseID r;
     streamingFormat := streamingFormat r;
     startInlineScript := startInlineScript r;
     sentCompleteSegmentFunction := sentCompleteSegmentFunction r;
     sentCompleteBoundaryFunction := sentCompleteBoundaryFunction r;
     sentCompleteContainerFunction := sentCompleteContainerFunction r;
     sentClientRenderFunction := sentClientRenderFunction r;
     sentStyleInsertionFunction := sentStyleInsertionFunction r;
     externalRuntimeConfig := externalRuntimeConfig r |}.

Definition set_hoistableChunks (v : list Chunk) (r : ResponseState) : ResponseState :=
  {| bootstrapChunks := bootstrapChunks r;
     fallbackBootstrapChunks := fallbackBootstrapChunks r;
     htmlChunks := htmlChunks r;
     headChunks := headChunks r;
     requiresEmbedding := requiresEmbedding r;
     rendered := rendered r;
     flushed := flushed r;
     charsetChunks := charsetChunks r;
     hoistableChunks := v;
     placeholderPrefix := placeholderPrefix r;
     segmentPrefix := segmentPrefix r;
     boundaryPrefix := boundaryPrefix r;
     containerBoundaryID := containerBoundaryID r;
     idPrefix := idPrefix r;
     nextSuspenseID := nextSuspenseID r;
     streamingFormat := streamingFormat r;
     startInlineScript := startInlineScript r;
     sentCompleteSegmentFunction := sentCompleteSegmentFunction r;
     sentCompleteBoundaryFunction := sentCompleteBoundaryFunction r;
     sentCompleteContainerFunction := sentCompleteContainerFunction r;
     sentClientRenderFunction := sentClientRenderFunction r;
     sentStyleInsertionFunction := sentStyleInsertionFunction r;
     externalRuntimeConfig := externalRuntimeConfig r |}.

Definition set_nextSuspenseID (v : N) (r : ResponseState) : ResponseState :=
  {| bootstrapChunks := bootstrapChunks r;
     fallbackBootstrapChunks := fallbackBootstrapChunks r;
     htmlChunks := htmlChunks r;
     headChunks := headChunks r;
     requiresEmbedding := requiresEmbedding r;
     rendered := rendered r;
     flushed := flushed r;
     charsetChunks := charsetChunks r;
     hoistableChunks := hoistableChunks r;
     placeholderPrefix := placeholderPrefix r;
     segmentPrefix := segmentPrefix r;
     boundaryPrefix := boundaryPrefix r;
     containerBoundaryID := containerBoundaryID r;
     idPrefix := idPrefix r;
     nextSuspenseID := v;
     streamingFormat := streamingFormat r;
     startInlineScript := startInlineScript r;
     sentCompleteSegmentFunction := sentCompleteSegmentFunction r;
     sentCompleteBoundaryFunction := sentCompleteBoundaryFunction r;
     sentCompleteContainerFunction := sentCompleteContainerFunction r;
     sentClientRenderFunction := sentClientRenderFunction r;
     sentStyleInsertionFunction := sentStyleInsertionFunction r;
     externalRuntimeConfig := externalRuntimeConfig r |}.

Definition set_sentCompleteSegmentFunction (v : bool) (r : ResponseState) : ResponseState :=
  {| bootstrapChunks := bootstrapChunks r;
     fallbackBootstrapChunks := fallbackBootstrapChunks r;
     htmlChunks := htmlChunks r;
     headChunks := headChunks r;
     requiresEmbedding := requiresEmbedding r;
     rendered := rendered r;
     flushed := flushed r;
     charsetChunks := charsetChunks r;
     hoistableChunks := hoistableChunks r;
     placeholderPrefix := placeholderPrefix r;
     segmentPrefix := segmentPrefix r;
     boundaryPrefix := boundaryPrefix r;
     containerBoundaryID := containerBoundaryID r;
     idPrefix := idPrefix r;
     nextSuspenseID := nextSuspenseID r;
     streamingFormat := streamingFormat r;
     startInlineScript := startInlineScript r;
     sentCompleteSegmentFunction := v;
     sentCompleteBoundaryFunction := sentCompleteBoundaryFunction r;
     sentCompleteContainerFunction := sentCompleteContainerFunction r;
     sentClientRenderFunction := sentClientRenderFunction r;
     sentStyleInsertionFunction := sentStyleInsertionFunction r;
     externalRuntimeConfig := externalRuntimeConfig r |}.

Definition set_sentCompleteBoundaryFunction (v : bool) (r : ResponseState) : ResponseState :=
  {| bootstrapChunks := bootstrapChunks r;
     fallbackBootstrapChunks := fallbackBootstrapChunks r;
     htmlChunks := htmlChunks r;
     headChunks := headChunks r;
     requiresEmbedding := requiresEmbedding r;
     rendered := rendered r;
     flushed := flushed r;
     charsetChunks := charsetChunks r;
     hoistableChunks := hoistableChunks r;
     placeholderPrefix := placeholderPrefix r;
     segmentPrefix := segmentPrefix r;
     boundaryPrefix := boundaryPrefix r;
     containerBoundaryID := containerBoundaryID r;
     idPrefix := idPrefix r;
     nextSuspenseID := nextSuspenseID r;
     streamingFormat := streamingFormat r;
     startInlineScript := startInlineScript r;
     sentCompleteSegmentFunction := sentCompleteSegmentFunction r;
     sentCompleteBoundaryFunction := v;
     sentCompleteContainerFunction := sentCompleteContainerFunction r;
     sentClientRenderFunction := sentClientRenderFunction r;
     sentStyleInsertionFunction := sentStyleInsertionFunction r;
     externalRuntimeConfig := externalRuntimeConfig r |}.

Definition set_sentCompleteContainerFunction (v : bool) (r : ResponseState) : ResponseState :=
  {| bootstrapChunks := bootstrapChunks r;
     fallbackBootstrapChunks := fallbackBootstrapChunks r;
     htmlChunks := htmlChunks r;
     headChunks := headChunks r;
     requiresEmbedding := requiresEmbedding r;
     rendered := rendered r;
     flushed := flushed r;
     charsetChunks := charsetChunks r;
     hoistableChunks := hoistableChunks r;
     placeholderPrefix := placeholderPrefix r;
     segmentPrefix := segmentPrefix r;
     boundaryPrefix := boundaryPrefix r;
     containerBoundaryID := containerBoundaryID r;
     idPrefix := idPrefix r;
     nextSuspenseID := nextSuspenseID r;
     streamingFormat := streamingFormat r;
     startInlineScript := startInlineScript r;
     sentCompleteSegmentFunction := sentCompleteSegmentFunction r;
     sentCompleteBoundaryFunction := sentCompleteBoundaryFunction r;
     sentCompleteContainerFunction := v;
     sentClientRenderFunction := sentClientRenderFunction r;
     sentStyleInsertionFunction := sentStyleInsertionFunction r;
     externalRuntimeConfig := externalRuntimeConfig r |}.

Definition set_sentClientRenderFunction (v : bool) (r : ResponseState) : ResponseState :=
  {| bootstrapChunks := bootstrapChunks r;
     fallbackBootstrapChunks := fallbackBootstrapChunks r;
     htmlChunks := htmlChunks r;
     headChunks := headChunks r;
     requiresEmbedding := requiresEmbedding r;
     rendered := rendered r;
     flushed := flushed r;
     charsetChunks := charsetChunks r;
     hoistableChunks := hoistableChunks r;
     placeholderPrefix := placeholderPrefix r;
     segmentPrefix := segmentPrefix r;
     boundaryPrefix := boundaryPrefix r;
     containerBoundaryID := containerBoundaryID r;
     idPrefix := idPrefix r;
     nextSuspenseID := nextSuspenseID r;
     streamingFormat := streamingFormat r;
     startInlineScript := startInlineScript r;
     sentCompleteSegmentFunction := sentCompleteSegmentFunction r;
     sentCompleteBoundaryFunction := sentCompleteBoundaryFunction r;
     sentCompleteContainerFunction := sentCompleteContainerFunction r;
     sentClientRenderFunction := v;
     sentStyleInsertionFunction := sentStyleInsertionFunction r;
     externalRuntimeConfig := externalRuntimeConfig r |}.

Definition set_sentStyleInsertionFunction (v : bool) (r : ResponseState) : ResponseState :=
  {| bootstrapChunks := bootstrapChunks r;
     fallbackBootstrapChunks := fallbackBootstrapChunks r;
     htmlChunks := htmlChunks r;
     headChunks := headChunks r;
     requiresEmbedding := requiresEmbedding r;
     rendered := rendered r;
     flushed := flushed r;
     charsetChunks := charsetChunks r;
     hoistableChunks := hoistableChunks r;
     placeholderPrefix := placeholderPrefix r;
     segmentPrefix := segmentPrefix r;
     boundaryPrefix := boundaryPrefix r;
     containerBoundaryID := containerBoundaryID r;
     idPrefix := idPrefix r;
     nextSuspenseID := nextSuspenseID r;
     streamingFormat := streamingFormat r;
     startInlineScript := startInlineScript r;
     sentCompleteSegmentFunction := sentCompleteSegmentFunction r;
     sentCompleteBoundaryFunction := sentCompleteBoundaryFunction r;
     sentCompleteContainerFunction := sentCompleteContainerFunction r;
     sentClientRenderFunction := sentClientRenderFunction r;
     sentStyleInsertionFunction := v;
     externalRuntimeConfig := externalRuntimeConfig r |}.

(* ================================================================== *)
(** * The resource registry (ReactDOMFloatServer.js) *)
(* ================================================================== *)

(** Resources are objects shared between the identity maps, the flush
    queues, the precedence sets and the boundary sets, and their [flushed]
    and [inShell] fields are assigned through any of these references.
    The objects of one request live in [heap]; a reference is the index
    of the object. *)
Definition addr : Type := nat.

(** The [type] field selects the constructor.  A style resource refers to
    its hint by address and to its precedence set by the key under which
    the set was entered into [precedences] (a set, once created, is never
    replaced). *)
Inductive Resource : Type :=
| PreloadResource (as_ href : jsstring) (props : Props) (flushed : bool)
| StyleResource (href precedence : jsstring) (props : Props)
    (flushed inShell : bool) (hint : addr) (set : jsstring)
| ScriptResource (src_ : jsstring) (props : Props) (flushed : bool)
    (hint : addr)
| HeadResource (type : jsstring) (props : Props) (flushed : bool).

Definition resourceProps (r : Resource) : Props :=
  match r with
  | PreloadResource _ _ props _ => props
  | StyleResource _ _ props _ _ _ _ => props
  | ScriptResource _ props _ _ => props
  | HeadResource _ props _ => props
  end.

Definition resourceFlushed (r : Resource) : bool :=
  match r with
  | PreloadResource _ _ _ f => f
  | StyleResource _ _ _ f _ _ _ => f
  | ScriptResource _ _ f _ => f
  | HeadResource _ _ f => f
  end.

(** [r.flushed = true] *)
Definition markFlushed (r : Resource) : Resource :=
  match r with
  | PreloadResource a h p _ => PreloadResource a h p true
  | StyleResource h pr p _ s hint set => StyleResource h pr p true s hint set
  | ScriptResource s p _ hint => ScriptResource s p true hint
  | HeadResource t p _ => HeadResource t p true
  end.

(** [r.inShell = true] *)
Definition markInShell (r : Resource) : Resource :=
  match r with
  | StyleResource h pr p f _ hint set => StyleResource h pr p f true hint set
  | other => other
  end.

(** A JavaScript [Set] of resources: insertion ordered, without
    duplicates. *)
Definition set_add (a : addr) (s : list addr) : list addr :=
  if bool_decide (a ∈ s) then s else s ++ [a].

(** [Resources].  The fields [headsMap], [charset] and
    [structuredMetaKeys] of the type are never read or written by the
    sources and are left out.  [boundarySets] holds the
    [BoundaryResources] objects created for the request, by address;
    [boundaryResources] refers to the one currently rendering. *)
Record Resources : Type := {
  heap : list Resource;
  boundarySets : list (list addr);
  preloadsMap : gmap jsstring addr;
  stylesMap : gmap jsstring addr;
  scriptsMap : gmap jsstring addr;
  bases : list addr;
  preconnects : list addr;
  fontPreloads : list addr;
  firstPrecedence : jsstring;
  firstPrecedenceFlushed : bool;
  precedences : list (jsstring * list addr);
  usedStylePreloads : list addr;
  scripts : list addr;
  usedScriptPreloads : list addr;
  explicitStylePreloads : list addr;
  explicitScriptPreloads : list addr;
  headResources : list addr;
  boundaryResources : option nat
}.

Definition with_heap (v : list Resource) (r : Resources) : Resources :=
  {| heap := v;
     boundarySets := boundarySets r;
     preloadsMap := preloadsMap r;
     stylesMap := stylesMap r;
     scriptsMap := scriptsMap r;
     bases := bases r;
     preconnects := preconnects r;
     fontPreloads := fontPreloads r;
     firstPrecedence := firstPrecedence r;
     firstPrecedenceFlushed := firstPrecedenceFlushed r;
     precedences := precedences r;
     usedStylePreloads := usedStylePreloads r;
     scripts := scripts r;
     usedScriptPreloads := usedScriptPreloads r;
     explicitStylePreloads := explicitStylePreloads r;
     explicitScriptPreloads := explicitScriptPreloads r;
     headResources := headResources r;
     boundaryResources := boundaryResources r |}.

Definition with_boundarySets (v : list (list addr)) (r : Resources) : Resources :=
  {| heap := heap r;
     boundarySets := v;
     preloadsMap := preloadsMap r;
     stylesMap := stylesMap r;
     scriptsMap := scriptsMap r;
     bases := bases r;
     preconnects := preconnects r;
     fontPreloads := fontPreloads r;
     firstPrecedence := firstPrecedence r;
     firstPrecedenceFlushed := firstPrecedenceFlushed r;
     precedences := precedences r;
     usedStylePreloads := usedStylePreloads r;
     scripts := scripts r;
     usedScriptPreloads := usedScriptPreloads r;
     explicitStylePreloads := explicitStylePreloads r;
     explicitScriptPreloads := explicitScriptPreloads r;
     headResources := headResources r;
     boundaryResources := boundaryResources r |}.

Definition with_preloadsMap (v : gmap jsstring addr) (r : Resources) : Resources :=
  {| heap := heap r;
     boundarySets := boundarySets r;
     preloadsMap := v;
     stylesMap := stylesMap r;
     scriptsMap := scriptsMap r;
     bases := bases r;
     preconnects := preconnects r;
     fontPreloads := fontPreloads r;
     firstPrecedence := firstPrecedence r;
     firstPrecedenceFlushed := firstPrecedenceFlushed r;
     precedences := precedences r;
     usedStylePreloads := usedStylePreloads r;
     scripts := scripts r;
     usedScriptPreloads := usedScriptPreloads r;
     explicitStylePreloads := explicitStylePreloads r;
     explicitScriptPreloads := explicitScriptPreloads r;
     headResources := headResources r;
     boundaryResources := boundaryResources r |}.

Definition with_stylesMap (v : gmap jsstring addr) (r : Resources) : Resources :=
  {| heap := heap r;
     boundarySets := boundarySets r;
     preloadsMap := preloadsMap r;
     stylesMap := v;
     scriptsMap := scriptsMap r;
     bases := bases r;
     preconnects := preconnects r;
     fontPreloads := fontPreloads r;
     firstPrecedence := firstPrecedence r;
     firstPrecedenceFlushed := firstPrecedenceFlushed r;
     precedences := precedences r;
     usedStylePreloads := usedStylePreloads r;
     scripts := scripts r;
     usedScriptPreloads := usedScriptPreloads r;
     explicitStylePreloads := explicitStylePreloads r;
     explicitScriptPreloads := explicitScriptPreloads r;
     headResources := headResources r;
     boundaryResources := boundaryResources r |}.

Definition with_scriptsMap (v : gmap jsstring addr) (r : Resources) : Resources :=
  {| heap := heap r;
     boundarySets := boundarySets r;
     preloadsMap := preloadsMap r;
     stylesMap := stylesMap r;
     scriptsMap := v;
     bases := bases r;
     preconnects := preconnects r;
     fontPreloads := fontPreloads r;
     firstPrecedence := firstPrecedence r;
     firstPrecedenceFlushed := firstPrecedenceFlushed r;
     precedences := precedences r;
     usedStylePreloads := usedStylePreloads r;
     scripts := scripts r;
     usedScriptPreloads := usedScriptPreloads r;
     explicitStylePreloads := explicitStylePreloads r;
     explicitScriptPreloads := explicitScriptPreloads r;
     headResources := headResources r;
     boundaryResources := boundaryResources r |}.

Definition with_bases (v : list addr) (r : Resources) : Resources :=
  {| heap := heap r;
     boundarySets := boundarySets r;
     preloadsMap := preloadsMap r;
     stylesMap := stylesMap r;
     scriptsMap := scriptsMap r;
     bases := v;
     preconnects := preconnects r;
     fontPreloads := fontPreloads r;
     firstPrecedence := firstPrecedence r;
     firstPrecedenceFlushed := firstPrecedenceFlushed r;
     precedences := precedences r;
     usedStylePreloads := usedStylePreloads r;
     scripts := scripts r;
     usedScriptPreloads := usedScriptPreloads r;
     explicitStylePreloads := explicitStylePreloads r;
     explicitScriptPreloads := explicitScriptPreloads r;
     headResources := headResources r;
     boundaryResources := boundaryResources r |}.

Definition with_preconnects (v : list addr) (r : Resources) : Resources :=
  {| heap := heap r;
     boundarySets := boundarySets r;
     preloadsMap := preloadsMap r;
     stylesMap := stylesMap r;
     scriptsMap := scriptsMap r;
     bases := bases r;
     preconnects := v;
     fontPreloads := fontPreloads r;
     firstPrecedence := firstPrecedence r;
     firstPrecedenceFlushed := firstPrecedenceFlushed r;
     precedences := precedences r;
     usedStylePreloads := usedStylePreloads r;
     scripts := scripts r;
     usedScriptPreloads := usedScriptPreloads r;
     explicitStylePreloads := explicitStylePreloads r;
     explicitScriptPreloads := explicitScriptPreloads r;
     headResources := headResources r;
     boundaryResources := boundaryResources r |}.

Definition with_fontPreloads (v : list addr) (r : Resources) : Resources :=
  {| heap := heap r;
     boundarySets := boundarySets r;
     preloadsMap := preloadsMap r;
     stylesMap := stylesMap r;
     scriptsMap := scriptsMap r;
     bases := bases r;
     preconnects := preconnects r;
     fontPreloads := v;
     firstPrecedence := firstPrecedence r;
     firstPrecedenceFlushed := firstPrecedenceFlushed r;
     precedences := precedences r;
     usedStylePreloads := usedStylePreloads r;
     scripts := scripts r;
     usedScriptPreloads := usedScriptPreloads r;
     explicitStylePreloads := explicitStylePreloads r;
     explicitScriptPreloads := explicitScriptPreloads r;
     headResources := headResources r;
     boundaryResources := boundaryResources r |}.

Definition with_firstPrecedence (v : jsstring) (r : Resources) : Resources :=
  {| heap := heap r;
     boundarySets := boundarySets r;
     preloadsMap := preloadsMap r;
     stylesMap := stylesMap r;
     scriptsMap := scriptsMap r;
     bases := bases r;
     preconnects := preconnects r;
     fontPreloads := fontPreloads r;
     firstPrecedence := v;
     firstPrecedenceFlushed := firstPrecedenceFlushed r;
     precedences := precedences r;
     usedStylePreloads := usedStylePreloads r;
     scripts := scripts r;
     usedScriptPreloads := usedScriptPreloads r;
     explicitStylePreloads := explicitStylePreloads r;
     explicitScriptPreloads := explicitScriptPreloads r;
     headResources := headResources r;
     boundaryResources := boundaryResources r |}.

Definition with_firstPrecedenceFlushed (v : bool) (r : Resources) : Resources :=
  {| heap := heap r;
     boundarySets := boundarySets r;
     preloadsMap := preloadsMap r;
     stylesMap := stylesMap r;
     scriptsMap := scriptsMap r;
     bases := bases r;
     preconnects := preconnects r;
     fontPreloads := fontPreloads r;
     firstPrecedence := firstPrecedence r;
     firstPrecedenceFlushed := v;
     precedences := precedences r;
     usedStylePreloads := usedStylePreloads r;
     scripts := scripts r;
     usedScriptPreloads := usedScriptPreloads r;
     explicitStylePreloads := explicitStylePreloads r;
     explicitScriptPreloads := explicitScriptPreloads r;
     headResources := headResources r;
     boundaryResources := boundaryResources r |}.

Definition with_precedences (v : list (jsstring * list addr)) (r : Resources) : Resources :=
  {| heap := heap r;
     boundarySets := boundarySets r;
     preloadsMap := preloadsMap r;
     stylesMap := stylesMap r;
     scriptsMap := scriptsMap r;
     bases := bases r;
     preconnects := preconnects r;
     fontPreloads := fontPreloads r;
     firstPrecedence := firstPrecedence r;
     firstPrecedenceFlushed := firstPrecedenceFlushed r;
     precedences := v;
     usedStylePreloads := usedStylePreloads r;
     scripts := scripts r;
     usedScriptPreloads := usedScriptPreloads r;
     explicitStylePreloads := explicitStylePreloads r;
     explicitScriptPreloads := explicitScriptPreloads r;
     headResources := headResources r;
     boundaryResources := boundaryResources r |}.

Definition with_usedStylePreloads (v : list addr) (r : Resources) : Resources :=
  {| heap := heap r;
     boundarySets := boundarySets r;
     preloadsMap := preloadsMap r;
     stylesMap := stylesMap r;
     scriptsMap := scriptsMap r;
     bases := bases r;
     preconnects := preconnects r;
     fontPreloads := fontPreloads r;
     firstPrecedence := firstPrecedence r;
     firstPrecedenceFlushed := firstPrecedenceFlushed r;
     precedences := precedences r;
     usedStylePreloads := v;
     scripts := scripts r;
     usedScriptPreloads := usedScriptPreloads r;
     explicitStylePreloads := explicitStylePreloads r;
     explicitScriptPreloads := explicitScriptPreloads r;
     headResources := headResources r;
     boundaryResources := boundaryResources r |}.

Definition with_scripts (v : list addr) (r : Resources) : Resources :=
  {| heap := heap r;
     boundarySets := boundarySets r;
     preloadsMap := preloadsMap r;
     stylesMap := stylesMap r;
     scriptsMap := scriptsMap r;
     bases := bases r;
     preconnects := preconnects r;
     fontPreloads := fontPreloads r;
     firstPrecedence := firstPrecedence r;
     firstPrecedenceFlushed := firstPrecedenceFlushed r;
     precedences := precedences r;
     usedStylePreloads := usedStylePreloads r;
     scripts := v;
     usedScriptPreloads := usedScriptPreloads r;
     explicitStylePreloads := explicitStylePreloads r;
     explicitScriptPreloads := explicitScriptPreloads r;
     headResources := headResources r;
     boundaryResources := boundaryResources r |}.

Definition with_usedScriptPreloads (v : list addr) (r : Resources) : Resources :=
  {| heap := heap r;
     boundarySets := boundarySets r;
     preloadsMap := preloadsMap r;
     stylesMap := stylesMap r;
     scriptsMap := scriptsMap r;
     bases := bases r;
     preconnects := preconnects r;
     fontPreloads := fontPreloads r;
     firstPrecedence := firstPrecedence r;
     firstPrecedenceFlushed := firstPrecedenceFlushed r;
     precedences := precedences r;
     usedStylePreloads := usedStylePreloads r;
     scripts := scripts r;
     usedScriptPreloads := v;
     explicitStylePreloads := explicitStylePreloads r;
     explicitScriptPreloads := explicitScriptPreloads r;
     headResources := headResources r;
     boundaryResources := boundaryResources r |}.

Definition with_explicitStylePreloads (v : list addr) (r : Resources) : Resources :=
  {| heap := heap r;
     boundarySets := boundarySets r;
     preloadsMap := preloadsMap r;
     stylesMap := stylesMap r;
     scriptsMap := scriptsMap r;
     bases := bases r;
     preconnects := preconnects r;
     fontPreloads := fontPreloads r;
     firstPrecedence := firstPrecedence r;
     firstPrecedenceFlushed := firstPrecedenceFlushed r;
     precedences := precedences r;
     usedStylePreloads := usedStylePreloads r;
     scripts := scripts r;
     usedScriptPreloads := usedScriptPreloads r;
     explicitStylePreloads := v;
     explicitScriptPreloads := explicitScriptPreloads r;
     headResources := headResources r;
     boundaryResources := boundaryResources r |}.

Definition with_explicitScriptPreloads (v : list addr) (r : Resources) : Resources :=
  {| heap := heap r;
     boundarySets := boundarySets r;
     preloadsMap := preloadsMap r;
     stylesMap := stylesMap r;
     scriptsMap := scriptsMap r;
     bases := bases r;
     preconnects := preconnects r;
     fontPreloads := fontPreloads r;
     firstPrecedence := firstPrecedence r;
     firstPrecedenceFlushed := firstPrecedenceFlushed r;
     precedences := precedences r;
     usedStylePreloads := usedStylePreloads r;
     scripts := scripts r;
     usedScriptPreloads := usedScriptPreloads r;
     explicitStylePreloads := explicitStylePreloads r;
     explicitScriptPreloads := v;
     headResources := headResources r;
     boundaryResources := boundaryResources r |}.

Definition with_headResources (v : list addr) (r : Resources) : Resources :=
  {| heap := heap r;
     boundarySets := boundarySets r;
     preloadsMap := preloadsMap r;
     stylesMap := stylesMap r;
     scriptsMap := scriptsMap r;
     bases := bases r;
     preconnects := preconnects r;
     fontPreloads := fontPreloads r;
     firstPrecedence := firstPrecedence r;
     firstPrecedenceFlushed := firstPrecedenceFlushed r;
     precedences := precedences r;
     usedStylePreloads := usedStylePreloads r;
     scripts := scripts r;
     usedScriptPreloads := usedScriptPreloads r;
     explicitStylePreloads := explicitStylePreloads r;
     explicitScriptPreloads := explicitScriptPreloads r;
     headResources := v;
     boundaryResources := boundaryResources r |}.

Definition with_boundaryResources (v : option nat) (r : Resources) : Resources :=
  {| heap := heap r;
     boundarySets := boundarySets r;
     preloadsMap := preloadsMap r;
     stylesMap := stylesMap r;
     scriptsMap := scriptsMap r;
     bases := bases r;
     preconnects := preconnects r;
     fontPreloads := fontPreloads r;
     firstPrecedence := firstPrecedence r;
     firstPrecedenceFlushed := firstPrecedenceFlushed r;
     precedences := precedences r;
     usedStylePreloads := usedStylePreloads r;
     scripts := scripts r;
     usedScriptPreloads := usedScriptPreloads r;
     explicitStylePreloads := explicitStylePreloads r;
     explicitScriptPreloads := explicitScriptPreloads r;
     headResources := headResources r;
     boundaryResources := v |}.

Definition createResources : Resources :=
  {| heap := [];
     boundarySets := [];
     preloadsMap := ∅;
     stylesMap := ∅;
     scriptsMap := ∅;
     bases := [];
     preconnects := [];
     fontPreloads := [];
     firstPrecedence := [];
     firstPrecedenceFlushed := false;
     precedences := [];
     usedStylePreloads := [];
     scripts := [];
     usedScriptPreloads := [];
     explicitStylePreloads := [];
     explicitScriptPreloads := [];
     headResources := [];
     boundaryResources := None |}.

(** [createBoundaryResources()]: a new empty set. *)
Definition createBoundaryResources (resources : Resources)
  : nat * Resources :=
  (length (boundarySets resources),
   with_boundarySets (boundarySets resources ++ [[]]) resources).

Definition setCurrentlyRenderingBoundaryResourcesTarget
    (resources : Resources) (target : option nat) : Resources :=
  with_boundaryResources target resources.

(** Assignment to a field of the object at [a]. *)
Definition updateResource (a : addr) (f : Resource -> Resource)
    (resources : Resources) : Resources :=
  match heap resources !! a with
  | Some r => with_heap (<[a := f r]> (heap resources)) resources
  | None => resources
  end.

(** [precedences.get(precedence)] *)
Fixpoint precedences_get (m : list (jsstring * list addr)) (key : jsstring)
  : option (list addr) :=
  match m with
  | [] => None
  | (k, s) :: rest => if jseqb k key then Some s else precedences_get rest key
  end.

(** Replacing the contents of the set entered under [key]. *)
Fixpoint precedences_update (m : list (jsstring * list addr)) (key : jsstring)
    (f : list addr -> list addr) : list (jsstring * list addr) :=
  match m with
  | [] => []
  | (k, s) :: rest =>
      if jseqb k key then (k, f s) :: rest
      else (k, s) :: precedences_update rest key f
  end.

(** [resource.set.add(resource)] for the style resource at [a]. *)
Definition addToPrecedenceSet (a : addr) (resources : Resources) : Resources :=
  match heap resources !! a with
  | Some (StyleResource _ _ _ _ _ _ set) =>
      with_precedences
        (precedences_update (precedences resources) set (set_add a)) resources
  | _ => resources
  end.

(** [boundaryResources.add(resource)] on the boundary set at [b]. *)
Definition addToBoundarySet (b : nat) (a : addr) (resources : Resources)
  : Resources :=
  match boundarySets resources !! b with
  | Some s =>
      with_boundarySets (<[b := set_add a s]> (boundarySets resources)) resources
  | None => resources
  end.

(** ** Props of the resources *)

Definition optString (o : option jsstring) : JsValue :=
  match o with Some s => VString s | None => VUndefined end.

Record PreloadOptions : Type := {
  preload_as : jsstring;
  preload_crossOrigin : option jsstring;
  preload_integrity : option jsstring
}.

Record PreinitOptions : Type := {
  preinit_as : jsstring;
  preinit_precedence : option jsstring;
  preinit_crossOrigin : option jsstring;
  preinit_integrity : option jsstring
}.

Definition preloadPropsFromPreloadOptions (href as_ : jsstring)
    (options : PreloadOptions) : Props :=
  [(js "href", VString href);
   (js "rel", VString (js "preload"));
   (js "as", VString as_);
   (js "crossOrigin",
     if jseqb as_ (js "font") then VString []
     else optString (preload_crossOrigin options));
   (js "integrity", optString (preload_integrity options))].

Definition preloadPropsFromRawProps (href as_ : jsstring) (rawProps : Props)
  : Props :=
  let props := setProp rawProps (js "href") (VString href) in
  let props := setProp props (js "rel") (VString (js "preload")) in
  let props := setProp props (js "as") (VString as_) in
  if jseqb as_ (js "font")
  then setProp props (js "crossOrigin") (VString [])
  else props.

Definition preloadAsStylePropsFromProps (href : jsstring) (props : Props)
  : Props :=
  [(js "rel", VString (js "preload"));
   (js "as", VString (js "style"));
   (js "href", VString href);
   (js "crossOrigin", getProp props (js "crossOrigin"));
   (js "integrity", getProp props (js "integrity"));
   (js "media", getProp props (js "media"));
   (js "hrefLang", getProp props (js "hrefLang"));
   (js "referrerPolicy", getProp props (js "referrerPolicy"))].

Definition preloadAsScriptPropsFromProps (href : jsstring) (props : Props)
  : Props :=
  [(js "rel", VString (js "preload"));
   (js "as", VString (js "script"));
   (js "href", VString href);
   (js "crossOrigin", getProp props (js "crossOrigin"));
   (js "integrity", getProp props (js "integrity"));
   (js "referrerPolicy", getProp props (js "referrerPolicy"))].

Definition stylePropsFromRawProps (href precedence : jsstring)
    (rawProps : Props) : Props :=
  let props := setProp rawProps (js "href") (VString href) in
  let props := setProp props (js "rel") (VString (js "stylesheet")) in
  let props := setProp props (js "data-precedence") (VString precedence) in
  deleteProp props (js "precedence").

Definition stylePropsFromPreinitOptions (href precedence : jsstring)
    (options : PreinitOptions) : Props :=
  [(js "rel", VString (js "stylesheet"));
   (js "href", VString href);
   (js "data-precedence", VString precedence);
   (js "crossOrigin", optString (preinit_crossOrigin options))].

Definition scriptPropsFromPreinitOptions (src_ : jsstring)
    (options : PreinitOptions) : Props :=
  [(js "src", VString src_);
   (js "async", VBool true);
   (js "crossOrigin", optString (preinit_crossOrigin options));
   (js "integrity", optString (preinit_integrity options))].

Definition scriptPropsFromRawProps (src_ : jsstring) (rawProps : Props)
  : Props :=
  setProp rawProps (js "src") (VString src_).

(** [if (resourceProps[key] == null) resourceProps[key] = preloadProps[key]] *)
Definition adoptProp (key : jsstring) (preloadProps resourceProps_ : Props)
  : Props :=
  if nullish (getProp resourceProps_ key)
  then setProp resourceProps_ key (getProp preloadProps key)
  else resourceProps_.

Definition adoptPreloadPropsForStyleProps (resourceProps_ preloadProps : Props)
  : Props :=
  adoptProp (js "title") preloadProps
    (adoptProp (js "referrerPolicy") preloadProps
       (adoptProp (js "crossOrigin") preloadProps resourceProps_)).

Definition adoptPreloadPropsForScriptProps (resourceProps_ preloadProps : Props)
  : Props :=
  adoptProp (js "integrity") preloadProps
    (adoptProp (js "referrerPolicy") preloadProps
       (adoptProp (js "crossOrigin") preloadProps resourceProps_)).

(** ** Creating resources *)

Definition createPreloadResource (resources : Resources)
    (href as_ : jsstring) (props : Props) : addr * Resources :=
  let a := length (heap resources) in
  (a,
   with_preloadsMap (<[href := a]> (preloadsMap resources))
     (with_heap (heap resources ++ [PreloadResource as_ href props false])
        resources)).

Definition createStyleResource (resources : Resources)
    (href precedence : jsstring) (props : Props) : addr * Resources :=
  (* the precedence set, created on first sight of the precedence *)
  let resources1 :=
    match precedences_get (precedences resources) precedence with
    | Some _ => resources
    | None =>
        let r := with_precedences (precedences resources ++ [(precedence, [])])
                   resources in
        match firstPrecedence resources with
        | [] => with_firstPrecedence precedence r
        | _ => r
        end
    end in
  let '(hint, props1, resources2) :=
    match preloadsMap resources1 !! href with
    | Some h =>
        match heap resources1 !! h with
        | Some hr =>
            (h, adoptPreloadPropsForStyleProps props (resourceProps hr),
             resources1)
        | None => (h, props, resources1)
        end
    | None =>
        let preloadResourceProps := preloadAsStylePropsFromProps href props in
        let '(h, r) :=
          createPreloadResource resources1 href (js "style")
            preloadResourceProps in
        (h, props,
         with_explicitStylePreloads (set_add h (explicitStylePreloads r)) r)
    end in
  let a := length (heap resources2) in
  (a,
   with_stylesMap (<[href := a]> (stylesMap resources2))
     (with_heap
        (heap resources2
         ++ [StyleResource href precedence props1 false false hint precedence])
        resources2)).

Definition createScriptResource (resources : Resources)
    (src_ : jsstring) (props : Props) : addr * Resources :=
  let '(hint, props1, resources1) :=
    match preloadsMap resources !! src_ with
    | Some h =>
        match heap resources !! h with
        | Some hr =>
            (h, adoptPreloadPropsForScriptProps props (resourceProps hr),
             resources)
        | None => (h, props, resources)
        end
    | None =>
        let preloadResourceProps := preloadAsScriptPropsFromProps src_ props in
        let '(h, r) :=
          createPreloadResource resources src_ (js "script")
            preloadResourceProps in
        (h, props,
         with_explicitScriptPreloads (set_add h (explicitScriptPreloads r)) r)
    end in
  let a := length (heap resources1) in
  (a,
   with_scriptsMap (<[src_ := a]> (scriptsMap resources1))
     (with_heap (heap resources1 ++ [ScriptResource src_ props1 false hint])
        resources1)).

(** ** The dispatcher: [preload] and [preinit]

    [href] and [options] have the types [string] and [PreloadOptions] /
    [PreinitOptions]; of the run-time guard
    [typeof href === 'string' && href && typeof options === 'object' &&
    options !== null] the test that [href] is not empty remains. *)

Definition preloadImpl (resources : Resources) (href : jsstring)
    (options : PreloadOptions) : Resources :=
  match href with
  | [] => resources
  | _ =>
      let as_ := preload_as options in
      let '(resource, resources1) :=
        match preloadsMap resources !! href with
        | Some a => (a, resources)
        | None =>
            createPreloadResource resources href as_
              (preloadPropsFromPreloadOptions href as_ options)
        end in
      if jseqb as_ (js "font") then
        with_fontPreloads (set_add resource (fontPreloads resources1)) resources1
      else if jseqb as_ (js "style") then
        with_explicitStylePreloads
          (set_add resource (explicitStylePreloads resources1)) resources1
      else if jseqb as_ (js "script") then
        with_explicitScriptPreloads
          (set_add resource (explicitScriptPreloads resources1)) resources1
      else resources1
  end.

Definition preinitImpl (resources : Resources) (href : jsstring)
    (options : PreinitOptions) : Resources :=
  match href with
  | [] => resources
  | _ =>
      let as_ := preinit_as options in
      if jseqb as_ (js "style") then
        let '(resource, resources1) :=
          match stylesMap resources !! href with
          | Some a => (a, resources)
          | None =>
              let precedence :=
                match preinit_precedence options with
                | Some (c :: p) => c :: p
                | _ => js "default"
                end in
              createStyleResource resources href precedence
                (stylePropsFromPreinitOptions href precedence options)
          end in
        let resources2 := addToPrecedenceSet resource resources1 in
        match heap resources2 !! resource with
        | Some (StyleResource _ _ _ _ _ hint _) =>
            with_explicitStylePreloads
              (set_add hint (explicitStylePreloads resources2)) resources2
        | _ => resources2
        end
      else if jseqb as_ (js "script") then
        match scriptsMap resources !! href with
        | Some _ => resources
        | None =>
            let '(resource, resources1) :=
              createScriptResource resources href
                (scriptPropsFromPreinitOptions href options) in
            with_scripts (set_add resource (scripts resources1)) resources1
        end
      else resources
  end.

(** [currentResources] is the module variable set by
    [prepareToRenderResources]; with no request rendering both calls
    return at once. *)
Definition preload (currentResources : option Resources) (href : jsstring)
    (options : PreloadOptions) : option Resources :=
  match currentResources with
  | None => None
  | Some resources => Some (preloadImpl resources href options)
  end.

Definition preinit (currentResources : option Resources) (href : jsstring)
    (options : PreinitOptions) : option Resources :=
  match currentResources with
  | None => None
  | Some resources => Some (preinitImpl resources href options)
  end.

(** ** Hoisting *)

Definition hoistResources (resources : Resources) (source : nat) : Resources :=
  match boundaryResources resources with
  | Some current =>
      match boundarySets resources !! source with
      | Some s =>
          let r := foldl (fun r a => addToBoundarySet current a r) resources s in
          with_boundarySets (<[source := []]> (boundarySets r)) r
      | None => resources
      end
  | None => resources
  end.

Definition hoistResourcesToRoot (resources : Resources) (boundary : nat)
  : Resources :=
  match boundarySets resources !! boundary with
  | Some s =>
      let r := foldl (fun r a => addToPrecedenceSet a r) resources s in
      with_boundarySets (<[boundary := []]> (boundarySets r)) r
  | None => resources
  end.

(* ================================================================== *)
(** * The format config (ReactDOMServerFormatConfig.js) *)
(* ================================================================== *)

(** The code units of the double quote and of the backslash. *)
Definition dq : jsstring := [34].
Definition bs : jsstring := [92].

Section FormatConfig.

Context `{Host}.

Definition dataElementQuotedEnd : Chunk :=
  Precomputed "dataElementQuotedEnd" (dq ++ js "></template>").

Definition startInlineScript_const : Chunk :=
  Precomputed "startInlineScript" (js "<script>").
Definition endInlineScript : Chunk :=
  Precomputed "endInlineScript" (js "</script>").

Definition startScriptSrc : Chunk :=
  Precomputed "startScriptSrc" (js "<script src=" ++ dq).
Definition startModuleSrc : Chunk :=
  Precomputed "startModuleSrc" (js "<script type=" ++ dq ++ js "module" ++ dq ++ js " src=" ++ dq).
Definition scriptIntegirty : Chunk :=
  Precomputed "scriptIntegirty" (dq ++ js " integrity=" ++ dq).
Definition endAsyncScript : Chunk :=
  Precomputed "endAsyncScript" (dq ++ js " async=" ++ dq ++ dq ++ js "></script>").

(** ** [escapeBootstrapScriptContent]

    [scriptRegex = /(<\/|<)(s)(cript)/gi]: the alternation tries ["</"]
    before ["<"]; the groups are the prefix, the letter s and the five
    letters that follow it. *)
Definition scriptRegex_letters (prefix r : jsstring)
  : option (jsstring * N * jsstring * jsstring) :=
  match r with
  | c :: r' =>
      if matchLetter 115 c && matchLetters (js "cript") r'
      then Some (prefix, c, take 5 r', drop 5 r')
      else None
  | [] => None
  end.

Definition scriptRegex_groups (s : jsstring)
  : option (jsstring * N * jsstring * jsstring) :=
  match s with
  | c0 :: r0 =>
      if c0 =? 60 then
        match (match r0 with
               | c1 :: r1 =>
                   if c1 =? 47 then scriptRegex_letters [60; 47] r1 else None
               | [] => None
               end) with
        | Some m => Some m
        | None => scriptRegex_letters [60] r0
        end
      else None
  | [] => None
  end.

(** [scriptReplacer (match, prefix, s, suffix)] *)
Definition scriptReplacer (prefix : jsstring) (s : N) (suffix : jsstring)
  : jsstring :=
  prefix ++ (if s =? 115 then bs ++ js "u0073" else bs ++ js "u0053") ++ suffix.

Definition scriptRegex : Exec := fun s =>
  match scriptRegex_groups s with
  | Some (prefix, c, suffix, after) => Some (scriptReplacer prefix c suffix, after)
  | None => None
  end.

Definition escapeBootstrapScriptContent (scriptText : jsstring) : jsstring :=
  replaceAll scriptRegex scriptText.

(** ** [createResponseState] *)

(** One pass of the loops over [bootstrapScripts] / [bootstrapModules]. *)
Definition bootstrapScriptChunks (start : Chunk)
    (scriptConfig : jsstring + BootstrapScriptDescriptor) : list Chunk :=
  let src_ := match scriptConfig with inl s => s | inr d => src d end in
  let integrity_ :=
    match scriptConfig with inl _ => None | inr d => integrity d end in
  [start; stringToChunk (escapeTextForBrowser src_)]
  ++ (match integrity_ with
      | Some (c :: i) =>
          [scriptIntegirty; stringToChunk (escapeTextForBrowser (c :: i))]
      | _ => []
      end)
  ++ [endAsyncScript].

Definition bootstrapListChunks (start : Chunk)
    (scripts : option (list (jsstring + BootstrapScriptDescriptor)))
  : list Chunk :=
  match scripts with
  | Some l => flat_map (bootstrapScriptChunks start) l
  | None => []
  end.

Definition createResponseState
    (identifierPrefix nonce bootstrapScriptContent : option jsstring)
    (bootstrapScripts bootstrapModules :
       option (list (jsstring + BootstrapScriptDescriptor)))
    (fallbackBootstrapScriptContent : option jsstring)
    (fallbackBootstrapScripts fallbackBootstrapModules :
       option (list (jsstring + BootstrapScriptDescriptor)))
    (externalRuntimeConfig_ : option (jsstring + BootstrapScriptDescriptor))
    (containerID : option jsstring)
    (documentEmbedding : option bool) : ResponseState :=
  let idPrefix_ := match identifierPrefix with None => [] | Some p => p end in
  let inlineScriptWithNonce :=
    match nonce with
    | None => startInlineScript_const
    | Some n =>
        stringToPrecomputedChunk
          (js "<script nonce=" ++ dq ++ escapeTextForBrowser n ++ dq ++ js ">")
    end in
  let inlineContent (content : option jsstring) :=
    match content with
    | Some c =>
        [inlineScriptWithNonce;
         stringToChunk (escapeBootstrapScriptContent c);
         endInlineScript]
    | None => []
    end in
  let bootstrapChunks_ :=
    inlineContent bootstrapScriptContent
    ++ bootstrapListChunks startScriptSrc bootstrapScripts
    ++ bootstrapListChunks startModuleSrc bootstrapModules in
  let externalRuntimeDesc :=
    if enableFizzExternalRuntime then
      match externalRuntimeConfig_ with
      | Some (inl s) => Some {| src := s; integrity := None |}
      | Some (inr d) => Some d
      | None => None
      end
    else None in
  let streamingFormat_ :=
    if enableFizzExternalRuntime then
      match externalRuntimeConfig_ with
      | Some _ => DataStreamingFormat
      | None => ScriptStreamingFormat
      end
    else ScriptStreamingFormat in
  let fallbackBootstrapChunks_ :=
    inlineContent fallbackBootstrapScriptContent
    ++ bootstrapListChunks startScriptSrc fallbackBootstrapScripts
    ++ bootstrapListChunks startModuleSrc fallbackBootstrapModules in
  {| bootstrapChunks := bootstrapChunks_;
     fallbackBootstrapChunks :=
       match fallbackBootstrapChunks_ with
       | [] => None
       | _ => Some fallbackBootstrapChunks_
       end;
     htmlChunks := [];
     headChunks := [];
     requiresEmbedding :=
       match documentEmbedding with Some true => true | _ => false end;
     rendered := NONE;
     flushed := NONE;
     charsetChunks := [];
     hoistableChunks := [];
     placeholderPrefix := stringToPrecomputedChunk (idPrefix_ ++ js "P:");
     segmentPrefix := stringToPrecomputedChunk (idPrefix_ ++ js "S:");
     boundaryPrefix := idPrefix_ ++ js "B:";
     idPrefix := idPrefix_;
     containerBoundaryID :=
       match containerID with
       | Some (c :: i) => Some (stringToPrecomputedChunk (c :: i))
       | _ => None
       end;
     nextSuspenseID := 0;
     streamingFormat := streamingFormat_;
     startInlineScript := inlineScriptWithNonce;
     sentCompleteSegmentFunction := false;
     sentCompleteBoundaryFunction := false;
     sentCompleteContainerFunction := false;
     sentClientRenderFunction := false;
     sentStyleInsertionFunction := false;
     externalRuntimeConfig := externalRuntimeDesc |}.

(** ** Insertion modes and the format context *)

Definition ROOT_HTML_MODE : N := 0.
Definition HTML_HTML_MODE : N := 1.
Definition HTML_MODE : N := 2.
Definition SVG_MODE : N := 3.
Definition MATHML_MODE : N := 4.
Definition HTML_TABLE_MODE : N := 5.
Definition HTML_TABLE_BODY_MODE : N := 6.
Definition HTML_TABLE_ROW_MODE : N := 7.
Definition HTML_COLGROUP_MODE : N := 8.

Record FormatContext : Type := {
  insertionMode : N;
  selectedValue : JsValue;
  noscriptTagInScope : bool
}.

(** ** Suspense boundary IDs

    A [SuspenseBoundaryID] is [null] or a chunk object.  The code compares
    IDs with [===], that is, by object identity.  The chunk objects that
    serve as IDs come from two places: the one stored in
    [responseState.containerBoundaryID] and the ones freshly allocated by
    [assignSuspenseBoundaryID]; the origin is kept with the chunk. *)
Inductive BoundaryOrigin : Type :=
| ContainerBoundary
| AssignedBoundary (generatedID : N).

Inductive SuspenseBoundaryID : Type :=
| UNINITIALIZED_SUSPENSE_BOUNDARY_ID
| BoundaryID (origin : BoundaryOrigin) (chunk : Chunk).

(** [boundaryID === responseState.containerBoundaryID] *)
Definition isContainerBoundaryID (boundaryID : SuspenseBoundaryID)
    (responseState : ResponseState) : bool :=
  match boundaryID, containerBoundaryID responseState with
  | UNINITIALIZED_SUSPENSE_BOUNDARY_ID, None => true
  | BoundaryID ContainerBoundary _, Some _ => true
  | _, _ => false
  end.

(** [n.toString(16)] *)
Definition toString16 (n : N) : jsstring :=
  js (NilZero.string_of_uint (N.to_hex_uint n)).

Definition assignSuspenseBoundaryID (responseState : ResponseState)
  : SuspenseBoundaryID * ResponseState :=
  let generatedID := nextSuspenseID responseState in
  (BoundaryID (AssignedBoundary generatedID)
     (stringToPrecomputedChunk
        (boundaryPrefix responseState ++ toString16 generatedID)),
   set_nextSuspenseID (generatedID + 1) responseState).

Definition getRootBoundaryID (responseState : ResponseState)
  : SuspenseBoundaryID :=
  match containerBoundaryID responseState with
  | Some c => BoundaryID ContainerBoundary c
  | None => UNINITIALIZED_SUSPENSE_BOUNDARY_ID
  end.

(** ** Text *)

Definition encodeHTMLTextNode (text : jsstring) : jsstring :=
  escapeTextForBrowser text.

Definition textSeparator : Chunk :=
  Precomputed "textSeparator" (js "<!-- -->").

(** [pushTextInstance(target, text, responseState, textEmbedded)]: the
    chunks appended to [target] and the returned flag. *)
Definition pushTextInstance (text : jsstring) (responseState : ResponseState)
    (textEmbedded : bool) : list Chunk * bool :=
  match text with
  | [] => ([], textEmbedded)
  | _ =>
      ((if textEmbedded then [textSeparator] else [])
       ++ [stringToChunk (encodeHTMLTextNode text)],
       true)
  end.

Definition pushSegmentFinale (responseState : ResponseState)
    (lastPushedText textEmbedded : bool) : list Chunk :=
  if lastPushedText && textEmbedded then [textSeparator] else [].

(** ** Start and end tags *)

Definition attributeSeparator : Chunk :=
  Precomputed "attributeSeparator" (js " ").
Definition endOfStartTag : Chunk := Precomputed "endOfStartTag" (js ">").
Definition endOfStartTagSelfClosing : Chunk :=
  Precomputed "endOfStartTagSelfClosing" (js "/>").
Definition endTag1 : Chunk := Precomputed "endTag1" (js "</").
Definition endTag2 : Chunk := Precomputed "endTag2" (js ">").
Definition DOCTYPE : Chunk := Precomputed "DOCTYPE" (js "<!DOCTYPE html>").

(** [VALID_TAG_REGEX = /^[a-zA-Z][a-zA-Z:_\.\-\d]*$/] *)
Definition isLetter (c : N) : bool :=
  ((65 <=? c) && (c <=? 90)) || ((97 <=? c) && (c <=? 122)).
Definition isTagChar (c : N) : bool :=
  isLetter c || (c =? 58) || (c =? 95) || (c =? 46) || (c =? 45)
  || ((48 <=? c) && (c <=? 57)).
Definition VALID_TAG_REGEX_test (tag : jsstring) : bool :=
  match tag with
  | c :: rest => isLetter c && forallb isTagChar rest
  | [] => false
  end.

(** [startChunkForTag(tag)]; [None] is [throw new Error('Invalid tag')].
    The cache keyed by the tag makes the chunk for one tag one object. *)
Definition startChunkForTag (tag : jsstring) : option Chunk :=
  if VALID_TAG_REGEX_test tag
  then Some (stringToPrecomputedChunk (js "<" ++ tag))
  else None.

(** [typeof v === 'object'] for a value that is not [null]. *)
Definition isObject (v : JsValue) : bool :=
  match v with VObject _ | VArray _ => true | _ => false end.

Definition pushInnerHTML (innerHTML children : JsValue)
  : option (list Chunk) :=
  if negb (nullish innerHTML) then
    if negb (nullish children) then None
    else
      match innerHTML with
      | VObject fields =>
          if hasProp fields (js "__html") then
            let html := getProp fields (js "__html") in
            if nullish html then Some []
            else
              text ← stringCoercion html;
              Some [stringToChunk text]
          else None
      | _ => None
      end
  else Some [].

(** The loop [for (const propKey in props)] of [pushLinkImpl]. *)
Fixpoint pushLinkImpl_props (isStylesheet : bool) (props : Props)
  : option (list Chunk) :=
  match props with
  | [] => Some []
  | (propKey, propValue) :: rest =>
      if nullish propValue then pushLinkImpl_props isStylesheet rest
      else if jseqb propKey (js "children")
              || jseqb propKey (js "dangerouslySetInnerHTML") then None
      else if jseqb propKey (js "precedence") && enableFloat && isStylesheet
      then pushLinkImpl_props isStylesheet rest
      else
        attr ← pushAttribute propKey propValue;
        more ← pushLinkImpl_props isStylesheet rest;
        Some (attr ++ more)
  end.

(** [pushLinkImpl(target, props, responseState)]: the chunks appended to
    [target]; [None] when it throws. *)
Definition pushLinkImpl (props : Props) : option (list Chunk) :=
  let isStylesheet :=
    match getProp props (js "rel") with
    | VString r => jseqb r (js "stylesheet")
    | _ => false
    end in
  start ← startChunkForTag (js "link");
  attrs ← pushLinkImpl_props isStylesheet props;
  Some ([start] ++ attrs ++ [endOfStartTagSelfClosing]).

(** The loop shared by [pushSelfClosing] and [pushStartMenuItem]: no
    [children], no [dangerouslySetInnerHTML]. *)
Fixpoint pushVoid_props (props : Props) : option (list Chunk) :=
  match props with
  | [] => Some []
  | (propKey, propValue) :: rest =>
      if nullish propValue then pushVoid_props rest
      else if jseqb propKey (js "children")
              || jseqb propKey (js "dangerouslySetInnerHTML") then None
      else
        attr ← pushAttribute propKey propValue;
        more ← pushVoid_props rest;
        Some (attr ++ more)
  end.

Definition pushSelfClosing (props : Props) (tag : jsstring)
  : option (list Chunk) :=
  start ← startChunkForTag tag;
  attrs ← pushVoid_props props;
  Some ([start] ++ attrs ++ [endOfStartTagSelfClosing]).

Definition pushStartMenuItem (props : Props) : option (list Chunk) :=
  start ← startChunkForTag (js "menuitem");
  attrs ← pushVoid_props props;
  Some ([start] ++ attrs ++ [endOfStartTag]).

(** The loop that sets [children] and [innerHTML] aside and pushes the
    other props as attributes ([pushScriptImpl],
    [pushStartGenericElement]). *)
Fixpoint pushGeneric_props (props : Props)
  : option (list Chunk * JsValue * JsValue) :=
  match props with
  | [] => Some ([], VNull, VNull)
  | (propKey, propValue) :: rest =>
      if nullish propValue then pushGeneric_props rest
      else if jseqb propKey (js "children") then
        '(more, _, innerHTML) ← pushGeneric_props rest;
        Some (more, propValue, innerHTML)
      else if jseqb propKey (js "dangerouslySetInnerHTML") then
        '(more, children, _) ← pushGeneric_props rest;
        Some (more, children, propValue)
      else
        attr ← pushAttribute propKey propValue;
        '(more, children, innerHTML) ← pushGeneric_props rest;
        Some (attr ++ more, children, innerHTML)
  end.

Definition pushScriptImpl (props : Props) : option (list Chunk) :=
  start ← startChunkForTag (js "script");
  '(attrs, children, innerHTML) ← pushGeneric_props props;
  inner ← pushInnerHTML innerHTML children;
  Some ([start] ++ attrs ++ [endOfStartTag] ++ inner
        ++ (match children with
            | VString text => [stringToChunk (encodeHTMLTextNode text)]
            | _ => []
            end)
        ++ [endTag1; stringToChunk (js "script"); endTag2]).

(** [pushStartGenericElement]: the chunks and the children to recurse
    into. *)
Definition pushStartGenericElement (props : Props) (tag : jsstring)
  : option (list Chunk * JsValue) :=
  start ← startChunkForTag tag;
  '(attrs, children, innerHTML) ← pushGeneric_props props;
  inner ← pushInnerHTML innerHTML children;
  match children with
  | VString text =>
      Some ([start] ++ attrs ++ [endOfStartTag] ++ inner
            ++ [stringToChunk (encodeHTMLTextNode text)], VNull)
  | _ => Some ([start] ++ attrs ++ [endOfStartTag] ++ inner, children)
  end.

(** The loop of [pushTitleImpl]. *)
Fixpoint pushTitle_props (props : Props) : option (list Chunk * JsValue) :=
  match props with
  | [] => Some ([], VNull)
  | (propKey, propValue) :: rest =>
      if nullish propValue then pushTitle_props rest
      else if jseqb propKey (js "children") then
        '(more, _) ← pushTitle_props rest;
        Some (more, propValue)
      else if jseqb propKey (js "dangerouslySetInnerHTML") then None
      else
        attr ← pushAttribute propKey propValue;
        '(more, children) ← pushTitle_props rest;
        Some (attr ++ more, children)
  end.

Definition pushTitleImpl (props : Props) : option (list Chunk) :=
  start ← startChunkForTag (js "title");
  '(attrs, children) ← pushTitle_props props;
  let child :=
    match children with
    | VArray items =>
        match items with
        | [] => VUndefined
        | [c] => c
        | _ => VNull
        end
    | other => other
    end in
  text ←
    match child with
    | VFunction | VSymbol | VNull | VUndefined => Some []
    | other =>
        t ← stringCoercion other;
        Some [stringToChunk (escapeTextForBrowser t)]
    end;
  Some ([start] ++ attrs ++ [endOfStartTag] ++ text
        ++ [endTag1; stringToChunk (js "title"); endTag2]).

(** [pushEndInstance(target, type, props, formatContext)]: the chunks
    appended to [target]. *)
Definition pushEndInstance (type : jsstring) (props : Props)
    (formatContext : FormatContext) : list Chunk :=
  let close := [endTag1; stringToChunk type; endTag2] in
  let omitted :=
    existsb (jseqb type)
      [js "area"; js "base"; js "br"; js "col"; js "embed"; js "hr";
       js "img"; js "input"; js "keygen"; js "link"; js "meta"; js "param";
       js "source"; js "track"; js "wbr"] in
  if jseqb type (js "title") || jseqb type (js "script") then
    if negb enableFloat then close else []
  else if omitted then []
  else if jseqb type (js "body") then
    if enableFloat && (insertionMode formatContext <=? HTML_HTML_MODE)
    then [] else close
  else if jseqb type (js "html") then
    if enableFloat && (insertionMode formatContext =? ROOT_HTML_MODE)
    then [] else close
  else close.

(** ** Links and scripts that become resources *)

(** [pushLink(target, props, responseState, textEmbedded,
    noscriptTagInScope)] with [currentResources] the module variable of
    the Float server ([expectCurrentResources] throws when it is not
    set).  The result holds the chunks appended to [target], the returned
    value, and the resources and the response state after the call;
    [None] when it throws. *)
Definition pushLink (currentResources : option Resources) (props : Props)
    (responseState : ResponseState) (textEmbedded noscriptTagInScope : bool)
  : option (list Chunk * JsValue * option Resources * ResponseState) :=
  if noscriptTagInScope then
    cs ← pushLinkImpl props;
    Some (cs, VNull, currentResources, responseState)
  else
    let sep := if textEmbedded then [textSeparator] else [] in
    resources ← currentResources;
    match getProp props (js "href"), getProp props (js "rel") with
    | VString (h :: href'), VString (r :: rel') =>
        let href := h :: href' in
        let rel := r :: rel' in
        let hoistable :=
          if truthy (getProp props (js "onLoad"))
             || truthy (getProp props (js "onError"))
          then Some (sep, VNull, Some resources, responseState)
          else
            cs ← pushLinkImpl props;
            Some (sep, VNull, Some resources,
                  set_hoistableChunks (hoistableChunks responseState ++ cs)
                    responseState) in
        if jseqb rel (js "stylesheet") then
          let precedence := getProp props (js "precedence") in
          if negb (isString precedence)
             || truthy (getProp props (js "onLoad"))
             || truthy (getProp props (js "onError"))
             || negb (nullish (getProp props (js "disabled")))
          then
            let resources1 :=
              match preloadsMap resources !! href with
              | Some _ => resources
              | None =>
                  let '(preloadResource, r1) :=
                    createPreloadResource resources href (js "style")
                      (preloadAsStylePropsFromProps href props) in
                  with_usedStylePreloads
                    (set_add preloadResource (usedStylePreloads r1)) r1
              end in
            cs ← pushLinkImpl props;
            Some (sep ++ cs, VNull, Some resources1, responseState)
          else
            let precedence_ :=
              match precedence with VString p => p | _ => [] end in
            let '(resource, resources1) :=
              match stylesMap resources !! href with
              | Some a => (a, resources)
              | None =>
                  let '(a, r1) :=
                    createStyleResource resources href precedence_
                      (stylePropsFromRawProps href precedence_ props) in
                  match heap r1 !! a with
                  | Some (StyleResource _ _ _ _ _ hint _) =>
                      (a, with_usedStylePreloads
                            (set_add hint (usedStylePreloads r1)) r1)
                  | _ => (a, r1)
                  end
              end in
            let resources2 :=
              match boundaryResources resources1 with
              | Some b => addToBoundarySet b resource resources1
              | None => addToPrecedenceSet resource resources1
              end in
            Some (sep, VNull, Some resources2, responseState)
        else if jseqb rel (js "preload") then
          match getProp props (js "as") with
          | VString as_ =>
              if jseqb as_ (js "script") || jseqb as_ (js "style")
                 || jseqb as_ (js "font")
              then
                let resources1 :=
                  match preloadsMap resources !! href with
                  | Some _ => resources
                  | None =>
                      let '(resource, r1) :=
                        createPreloadResource resources href as_
                          (preloadPropsFromRawProps href as_ props) in
                      if jseqb as_ (js "script") then
                        with_explicitScriptPreloads
                          (set_add resource (explicitScriptPreloads r1)) r1
                      else if jseqb as_ (js "style") then
                        with_explicitStylePreloads
                          (set_add resource (explicitStylePreloads r1)) r1
                      else
                        with_fontPreloads
                          (set_add resource (fontPreloads r1)) r1
                  end in
                Some (sep, VNull, Some resources1, responseState)
              else hoistable
          | _ => hoistable
          end
        else hoistable
    | _, _ => Some (sep, VBool false, Some resources, responseState)
    end.

(** [pushScript(target, props, responseState, textEmbedded,
    noscriptTagInScope)]: the chunks appended to [target] and the
    resources after the call (the function returns [null] on every
    path). *)
Definition pushScript (currentResources : option Resources) (props : Props)
    (responseState : ResponseState) (textEmbedded noscriptTagInScope : bool)
  : option (list Chunk * option Resources) :=
  if noscriptTagInScope then
    cs ← pushScriptImpl props;
    Some (cs, currentResources)
  else
    resources ← currentResources;
    match getProp props (js "src") with
    | VString (c :: s') =>
        let src_ := c :: s' in
        if truthy (getProp props (js "async")) then
          let resources1 :=
            if truthy (getProp props (js "onLoad"))
               || truthy (getProp props (js "onError"))
            then
              match preloadsMap resources !! src_ with
              | Some _ => resources
              | None =>
                  let '(preloadResource, r1) :=
                    createPreloadResource resources src_ (js "script")
                      (preloadAsScriptPropsFromProps src_ props) in
                  with_usedScriptPreloads
                    (set_add preloadResource (usedScriptPreloads r1)) r1
              end
            else
              match scriptsMap resources !! src_ with
              | Some _ => resources
              | None =>
                  let '(resource, r1) :=
                    createScriptResource resources src_
                      (scriptPropsFromRawProps src_ props) in
                  with_scripts (set_add resource (scripts r1)) r1
              end in
          Some (if textEmbedded then [textSeparator] else [],
                Some resources1)
        else
          cs ← pushScriptImpl props;
          Some (cs, Some resources)
    | _ =>
        cs ← pushScriptImpl props;
        Some (cs, Some resources)
    end.

(* ------------------------------------------------------------------ *)
(** ** The monad of the write functions

    A computation reads and assigns the response state and the resources
    of the request, appends chunks to the array it is filling (the
    destination, or a local [target]) and may throw.  After a throw the
    assignments and the chunks written so far remain. *)

Record Request : Type := {
  req_response : ResponseState;
  req_resources : Resources
}.

Definition W (A : Type) : Type := Request -> Request * list Chunk * option A.

#[global] Instance W_ret : MRet W := fun A a s => (s, [], Some a).

#[global] Instance W_bind : MBind W := fun A B f m s =>
  match m s with
  | (s1, out1, Some a) =>
      match f a s1 with
      | (s2, out2, r) => (s2, out1 ++ out2, r)
      end
  | (s1, out1, None) => (s1, out1, None)
  end.

Definition throw {A : Type} : W A := fun s => (s, [], None).

(** [writeChunk(destination, chunk)] / [target.push(chunk)] *)
Definition writeChunk (chunk : Chunk) : W unit := fun s => (s, [chunk], Some tt).

(** [writeChunkAndReturn]: browser streams have no backpressure. *)
Definition writeChunkAndReturn (chunk : Chunk) : W bool :=
  fun s => (s, [chunk], Some true).

Definition writeChunks (chunks : list Chunk) : W unit :=
  fun s => (s, chunks, Some tt).

Definition getResponse : W ResponseState :=
  fun s => (s, [], Some (req_response s)).
Definition getResources : W Resources :=
  fun s => (s, [], Some (req_resources s)).
Definition modifyResponse (f : ResponseState -> ResponseState) : W unit :=
  fun s => ({| req_response := f (req_response s);
               req_resources := req_resources s |}, [], Some tt).
Definition modifyResources (f : Resources -> Resources) : W unit :=
  fun s => ({| req_response := req_response s;
               req_resources := f (req_resources s) |}, [], Some tt).

(** The result of a call that throws when it is [None]. *)
Definition orThrow {A : Type} (o : option A) : W A :=
  match o with Some a => mret a | None => throw end.

(** Runs [m] with a fresh local array and hands the array back. *)
Definition withTarget {A : Type} (m : W A) : W (A * list Chunk) := fun s =>
  match m s with
  | (s1, target, Some a) => (s1, [], Some (a, target))
  | (s1, _, None) => (s1, [], None)
  end.

Fixpoint forEach {A : Type} (l : list A) (f : A -> W unit) : W unit :=
  match l with
  | [] => mret tt
  | x :: rest => f x ;; forEach rest f
  end.

(** The loop that ends the flush functions: every chunk of [target] goes
    to the destination; the result is that of the last write. *)
Definition writeTarget (target : list Chunk) : W bool :=
  writeChunks target ;; mret true.

(* ------------------------------------------------------------------ *)
(** ** Flushing the resources *)

Definition precedencePlaceholderStart : Chunk :=
  Precomputed "precedencePlaceholderStart" (js "<style data-precedence=" ++ dq).
Definition precedencePlaceholderEnd : Chunk :=
  Precomputed "precedencePlaceholderEnd" (dq ++ js "></style>").

(** [r.flushed = true] for the resource at [a]. *)
Definition setFlushed (a : addr) : W unit :=
  modifyResources (updateResource a markFlushed).

(** The preamble that the three flush functions share: the external
    runtime is preinitialized as a script. *)
Definition preinitExternalRuntime (willEmitInstructions : bool) : W unit :=
  responseState ← getResponse;
  match externalRuntimeConfig responseState with
  | Some config =>
      if enableFizzExternalRuntime && willEmitInstructions then
        modifyResources (fun resources =>
          preinitImpl resources (src config)
            {| preinit_as := js "script";
               preinit_precedence := None;
               preinit_crossOrigin := None;
               preinit_integrity := integrity config |})
      else mret tt
  | None => mret tt
  end.

(** The local function [flushLinkResource]. *)
Definition flushLinkResource (a : addr) : W unit :=
  resources ← getResources;
  match heap resources !! a with
  | Some r =>
      if negb (resourceFlushed r) then
        cs ← orThrow (pushLinkImpl (resourceProps r));
        writeChunks cs ;;
        setFlushed a
      else mret tt
  | None => mret tt
  end.

(** [bases.forEach(r => { pushSelfClosing(target, r.props, 'base', ...);
    r.flushed = true })] *)
Definition flushBase (a : addr) : W unit :=
  resources ← getResources;
  match heap resources !! a with
  | Some r =>
      cs ← orThrow (pushSelfClosing (resourceProps r) (js "base"));
      writeChunks cs ;;
      setFlushed a
  | None => mret tt
  end.

(** The callback of [preconnects.forEach] and [fontPreloads.forEach]:
    no test of [flushed]. *)
Definition flushLinkUnchecked (a : addr) : W unit :=
  resources ← getResources;
  match heap resources !! a with
  | Some r =>
      cs ← orThrow (pushLinkImpl (resourceProps r));
      writeChunks cs ;;
      setFlushed a
  | None => mret tt
  end.

(** The callback on the style resources of a precedence set. *)
Definition flushStyleInShell (a : addr) : W unit :=
  resources ← getResources;
  match heap resources !! a with
  | Some r =>
      if negb (resourceFlushed r) then
        cs ← orThrow (pushLinkImpl (resourceProps r));
        writeChunks cs ;;
        setFlushed a ;;
        modifyResources (updateResource a markInShell) ;;
        match r with
        | StyleResource _ _ _ _ _ hint _ => setFlushed hint
        | _ => mret tt
        end
      else mret tt
  | None => mret tt
  end.

(** The callback of [scripts.forEach]. *)
Definition flushScript (a : addr) : W unit :=
  resources ← getResources;
  match heap resources !! a with
  | Some r =>
      cs ← orThrow (pushScriptImpl (resourceProps r));
      writeChunks cs ;;
      setFlushed a ;;
      match r with
      | ScriptResource _ _ _ hint => setFlushed hint
      | _ => mret tt
      end
  | None => mret tt
  end.

(** The callback of [headResources.forEach]. *)
Definition flushHeadResource (a : addr) : W unit :=
  resources ← getResources;
  match heap resources !! a with
  | Some r =>
      match r with
      | HeadResource type props _ =>
          if jseqb type (js "title") then
            cs ← orThrow (pushTitleImpl props); writeChunks cs
          else if jseqb type (js "meta") then
            cs ← orThrow (pushSelfClosing props (js "meta")); writeChunks cs
          else if jseqb type (js "link") then
            cs ← orThrow (pushLinkImpl props); writeChunks cs
          else mret tt
      | _ => mret tt
      end ;;
      setFlushed a
  | None => mret tt
  end.

(** [set.forEach(f); set.clear()] on one of the flush queues. *)
Definition drain (queue : Resources -> list addr)
    (clear : Resources -> Resources) (f : addr -> W unit) : W unit :=
  resources ← getResources;
  forEach (queue resources) f ;;
  modifyResources clear.

(** The callback of [precedences.forEach] in [writeInitialResources]. *)
Definition flushPrecedence (firstPrecedence_ : jsstring)
    (firstPrecedenceFlushed_ : bool) (precedence : jsstring) : W unit :=
  resources ← getResources;
  match precedences_get (precedences resources) precedence with
  | Some p =>
      if jseqb precedence firstPrecedence_ && firstPrecedenceFlushed_
         && (length p =? 0)%nat
      then mret tt
      else
        match p with
        | _ :: _ =>
            forEach p flushStyleInShell ;;
            modifyResources (fun r =>
              with_precedences
                (precedences_update (precedences r) precedence (fun _ => []))
                r)
        | [] =>
            writeChunks
              [precedencePlaceholderStart;
               stringToChunk (escapeTextForBrowser precedence);
               precedencePlaceholderEnd]
        end
  | None => mret tt
  end.

Definition writeInitialResources (willEmitInstructions : bool) : W bool :=
  preinitExternalRuntime willEmitInstructions ;;
  '(_, target) ← withTarget (
    resources ← getResources;
    let firstPrecedence_ := firstPrecedence resources in
    let firstPrecedenceFlushed_ := firstPrecedenceFlushed resources in
    drain bases (with_bases []) flushBase ;;
    drain preconnects (with_preconnects []) flushLinkUnchecked ;;
    drain fontPreloads (with_fontPreloads []) flushLinkUnchecked ;;
    forEach (map fst (precedences resources))
      (flushPrecedence firstPrecedence_ firstPrecedenceFlushed_) ;;
    drain usedStylePreloads (with_usedStylePreloads []) flushLinkResource ;;
    drain scripts (with_scripts []) flushScript ;;
    drain usedScriptPreloads (with_usedScriptPreloads []) flushLinkResource ;;
    drain explicitStylePreloads (with_explicitStylePreloads [])
      flushLinkResource ;;
    drain explicitScriptPreloads (with_explicitScriptPreloads [])
      flushLinkResource ;;
    drain headResources (with_headResources []) flushHeadResource);
  writeTarget target.

Definition writeEarlyResources (willEmitInstructions : bool) : W bool :=
  preinitExternalRuntime willEmitInstructions ;;
  '(_, target) ← withTarget (
    resources ← getResources;
    let firstPrecedence_ := firstPrecedence resources in
    drain bases (with_bases []) flushBase ;;
    drain preconnects (with_preconnects []) flushLinkUnchecked ;;
    drain fontPreloads (with_fontPreloads []) flushLinkUnchecked ;;
    match firstPrecedence_ with
    | _ :: _ =>
        match precedences_get (precedences resources) firstPrecedence_ with
        | Some (x :: precedenceSet) =>
            forEach (x :: precedenceSet) flushStyleInShell ;;
            modifyResources (with_firstPrecedenceFlushed true) ;;
            modifyResources (fun r =>
              with_precedences
                (precedences_update (precedences r) firstPrecedence_
                   (fun _ => [])) r)
        | _ => mret tt
        end
    | [] => mret tt
    end ;;
    drain usedStylePreloads (with_usedStylePreloads []) flushLinkResource ;;
    drain scripts (with_scripts []) flushScript ;;
    drain usedScriptPreloads (with_usedScriptPreloads []) flushLinkResource ;;
    drain explicitStylePreloads (with_explicitStylePreloads [])
      flushLinkResource ;;
    drain explicitScriptPreloads (with_explicitScriptPreloads [])
      flushLinkResource ;;
    drain headResources (with_headResources []) flushHeadResource);
  writeTarget target.

Definition writeResources (willEmitInstructions : bool) : W bool :=
  preinitExternalRuntime willEmitInstructions ;;
  '(_, target) ← withTarget (
    drain preconnects (with_preconnects []) flushLinkUnchecked ;;
    drain fontPreloads (with_fontPreloads []) flushLinkUnchecked ;;
    drain usedStylePreloads (with_usedStylePreloads []) flushLinkResource ;;
    drain scripts (with_scripts []) flushScript ;;
    drain usedScriptPreloads (with_usedScriptPreloads []) flushLinkResource ;;
    drain explicitStylePreloads (with_explicitStylePreloads [])
      flushLinkResource ;;
    drain explicitScriptPreloads (with_explicitScriptPreloads [])
      flushLinkResource ;;
    drain headResources (with_headResources []) flushHeadResource);
  writeTarget target.

(* ------------------------------------------------------------------ *)
(** ** Preamble and postamble *)

(** [flags & bit] as a condition. *)
Definition hasFlag (flags bit : N) : bool := negb (N.land flags bit =? 0).

(** [writeChunk(destination, startChunkForTag(tag))] *)
Definition writeStartChunkForTag (tag : jsstring) : W unit :=
  c ← orThrow (startChunkForTag tag); writeChunk c.

(** The two loops over [charsetChunks] and [hoistableChunks] around the
    resources; [writeResources_] is [writeInitialResources] or
    [writeEarlyResources]. *)
Definition writeHeadContents (writeResources_ : W bool) : W bool :=
  responseState ← getResponse;
  writeChunks (charsetChunks responseState) ;;
  modifyResponse (set_charsetChunks []) ;;
  r ← writeResources_;
  responseState ← getResponse;
  writeChunks (hoistableChunks responseState) ;;
  modifyResponse (set_hoistableChunks []) ;;
  mret true.

Definition writePreamble (willEmitInstructions : bool) : W bool :=
  if enableFloat then
    responseState ← getResponse;
    (if flushed responseState =? NONE then
       (match htmlChunks responseState with
        | _ :: _ =>
            modifyResponse (fun rs => set_flushed (N.lor (flushed rs) HTML) rs) ;;
            writeChunks (htmlChunks responseState)
        | [] =>
            if requiresEmbedding responseState then
              modifyResponse (fun rs => set_flushed (N.lor (flushed rs) HTML) rs) ;;
              writeChunk DOCTYPE ;;
              writeStartChunkForTag (js "html") ;;
              writeChunk endOfStartTag
            else mret tt
        end) ;;
       (match headChunks responseState with
        | _ :: _ =>
            modifyResponse (fun rs => set_flushed (N.lor (flushed rs) HEAD) rs) ;;
            writeChunks (headChunks responseState)
        | [] =>
            rs ← getResponse;
            if hasFlag (flushed rs) HTML then
              modifyResponse (fun rs => set_flushed (N.lor (flushed rs) HEAD) rs) ;;
              writeStartChunkForTag (js "head") ;;
              writeChunk endOfStartTag
            else mret tt
        end)
     else mret tt) ;;
    writeHeadContents (writeInitialResources willEmitInstructions) ;;
    rs ← getResponse;
    (if (N.land (rendered rs) HEAD =? NONE) && hasFlag (flushed rs) HEAD then
       writeChunk endTag1 ;;
       writeChunk (stringToChunk (js "head")) ;;
       writeChunk endTag2
     else mret tt) ;;
    (if requiresEmbedding rs
        && (N.land (rendered rs) HTML_HEAD_OR_BODY =? NONE) then
       modifyResponse (fun rs => set_flushed (N.lor (flushed rs) BODY) rs) ;;
       writeStartChunkForTag (js "body") ;;
       writeChunk endOfStartTag
     else
       modifyResponse (fun rs =>
         set_flushed (N.lor (flushed rs) (N.land (rendered rs) BODY)) rs)) ;;
    mret true
  else mret true.

Definition writeEarlyPreamble (willEmitInstructions : bool) : W bool :=
  if enableFloat then
    responseState ← getResponse;
    if requiresEmbedding responseState then
      if negb (rendered responseState =? NONE) then
        (if flushed responseState =? NONE then
           (match htmlChunks responseState with
            | _ :: _ => writeChunks (htmlChunks responseState)
            | [] =>
                writeChunk DOCTYPE ;;
                writeStartChunkForTag (js "html") ;;
                writeChunk endOfStartTag
            end) ;;
           (match headChunks responseState with
            | _ :: _ => writeChunks (headChunks responseState)
            | [] =>
                writeStartChunkForTag (js "head") ;;
                writeChunk endOfStartTag
            end) ;;
           modifyResponse (fun rs =>
             set_flushed (N.lor (flushed rs) (N.lor HTML HEAD)) rs)
         else mret tt) ;;
        writeHeadContents (writeEarlyResources willEmitInstructions)
      else mret true
    else mret true
  else mret true.

Definition writePostamble : W unit :=
  if enableFloat then
    responseState ← getResponse;
    (if negb (N.land (flushed responseState) BODY =? NONE) then
       writeChunk endTag1 ;;
       writeChunk (stringToChunk (js "body")) ;;
       writeChunk endTag2
     else mret tt) ;;
    (if negb (N.land (flushed responseState) HTML =? NONE) then
       writeChunk endTag1 ;;
       writeChunk (stringToChunk (js "html")) ;;
       writeChunk endTag2
     else mret tt)
  else mret tt.

(* ------------------------------------------------------------------ *)
(** ** Suspense boundaries in the stream *)

Definition placeholder1 : Chunk :=
  Precomputed "placeholder1" (js "<template id=" ++ dq).
Definition placeholder2 : Chunk :=
  Precomputed "placeholder2" (dq ++ js "></template>").

Definition writePlaceholder (id : N) : W bool :=
  responseState ← getResponse;
  writeChunk placeholder1 ;;
  writeChunk (placeholderPrefix responseState) ;;
  writeChunk (stringToChunk (toString16 id)) ;;
  writeChunkAndReturn placeholder2.

Definition startCompletedSuspenseBoundary : Chunk :=
  Precomputed "startCompletedSuspenseBoundary" (js "<!--$-->").
Definition startPendingSuspenseBoundary1 : Chunk :=
  Precomputed "startPendingSuspenseBoundary1"
    (js "<!--$?--><template id=" ++ dq).
Definition startPendingSuspenseBoundary2 : Chunk :=
  Precomputed "startPendingSuspenseBoundary2" (dq ++ js "></template>").
Definition startClientRenderedSuspenseBoundary : Chunk :=
  Precomputed "startClientRenderedSuspenseBoundary" (js "<!--$!-->").
Definition endSuspenseBoundary : Chunk :=
  Precomputed "endSuspenseBoundary" (js "<!--/$-->").

Definition clientRenderedSuspenseBoundaryError1 : Chunk :=
  Precomputed "clientRenderedSuspenseBoundaryError1" (js "<template").
Definition clientRenderedSuspenseBoundaryErrorAttrInterstitial : Chunk :=
  Precomputed "clientRenderedSuspenseBoundaryErrorAttrInterstitial" dq.
Definition clientRenderedSuspenseBoundaryError1A : Chunk :=
  Precomputed "clientRenderedSuspenseBoundaryError1A" (js " data-dgst=" ++ dq).
Definition clientRenderedSuspenseBoundaryError1B : Chunk :=
  Precomputed "clientRenderedSuspenseBoundaryError1B" (js " data-msg=" ++ dq).
Definition clientRenderedSuspenseBoundaryError1C : Chunk :=
  Precomputed "clientRenderedSuspenseBoundaryError1C" (js " data-stck=" ++ dq).
Definition clientRenderedSuspenseBoundaryError2 : Chunk :=
  Precomputed "clientRenderedSuspenseBoundaryError2" (js "></template>").

(** A [?string] that is truthy, with its value. *)
Definition nonEmpty (o : option jsstring) : option jsstring :=
  match o with
  | Some (c :: s) => Some (c :: s)
  | _ => None
  end.

(** [o || ''] *)
Definition orEmpty (o : option jsstring) : jsstring :=
  match o with Some s => s | None => [] end.

Definition writeStartCompletedSuspenseBoundary : W bool :=
  writeChunkAndReturn startCompletedSuspenseBoundary.

Definition writeStartPendingSuspenseBoundary (id : SuspenseBoundaryID)
  : W bool :=
  writeChunk startPendingSuspenseBoundary1 ;;
  match id with
  | UNINITIALIZED_SUSPENSE_BOUNDARY_ID => throw
  | BoundaryID _ chunk =>
      writeChunk chunk ;;
      writeChunkAndReturn startPendingSuspenseBoundary2
  end.

Definition writeStartClientRenderedSuspenseBoundary
    (errorDigest errorMesssage errorComponentStack : option jsstring)
  : W bool :=
  writeChunkAndReturn startClientRenderedSuspenseBoundary ;;
  writeChunk clientRenderedSuspenseBoundaryError1 ;;
  match nonEmpty errorDigest with
  | Some d =>
      writeChunk clientRenderedSuspenseBoundaryError1A ;;
      writeChunk (stringToChunk (escapeTextForBrowser d)) ;;
      writeChunk clientRenderedSuspenseBoundaryErrorAttrInterstitial
  | None => mret tt
  end ;;
  (if DEV then
     match nonEmpty errorMesssage with
     | Some m =>
         writeChunk clientRenderedSuspenseBoundaryError1B ;;
         writeChunk (stringToChunk (escapeTextForBrowser m)) ;;
         writeChunk clientRenderedSuspenseBoundaryErrorAttrInterstitial
     | None => mret tt
     end ;;
     match nonEmpty errorComponentStack with
     | Some st =>
         writeChunk clientRenderedSuspenseBoundaryError1C ;;
         writeChunk (stringToChunk (escapeTextForBrowser st)) ;;
         writeChunk clientRenderedSuspenseBoundaryErrorAttrInterstitial
     | None => mret tt
     end
   else mret tt) ;;
  writeChunkAndReturn clientRenderedSuspenseBoundaryError2.

Definition writeEndCompletedSuspenseBoundary : W bool :=
  writeChunkAndReturn endSuspenseBoundary.
Definition writeEndPendingSuspenseBoundary : W bool :=
  writeChunkAndReturn endSuspenseBoundary.
Definition writeEndClientRenderedSuspenseBoundary : W bool :=
  writeChunkAndReturn endSuspenseBoundary.

(* ------------------------------------------------------------------ *)
(** ** Escaping inside instruction scripts *)

(** [regexForJSStringsInInstructionScripts = /[<\u2028\u2029]/g] with its
    replacer.  The cases of the replacer are the code units of the class,
    so its [default], which throws, is never taken. *)
Definition regexForJSStringsInInstructionScripts : Exec := fun s =>
  match s with
  | c :: after =>
      if c =? 60 then Some (bs ++ js "u003c", after)
      else if c =? 8232 then Some (bs ++ js "u2028", after)
      else if c =? 8233 then Some (bs ++ js "u2029", after)
      else None
  | [] => None
  end.

Definition escapeJSStringsForInstructionScripts (input : jsstring)
  : jsstring :=
  let escaped := JSON_stringify input in
  replaceAll regexForJSStringsInInstructionScripts escaped.

(** [regexForJSStringsInScripts = /[&><\u2028\u2029]/g] with its
    replacer. *)
Definition regexForJSStringsInScripts : Exec := fun s =>
  match s with
  | c :: after =>
      if c =? 38 then Some (bs ++ js "u0026", after)
      else if c =? 62 then Some (bs ++ js "u003e", after)
      else if c =? 60 then Some (bs ++ js "u003c", after)
      else if c =? 8232 then Some (bs ++ js "u2028", after)
      else if c =? 8233 then Some (bs ++ js "u2029", after)
      else None
  | [] => None
  end.

(** The callers pass strings. *)
Definition escapeJSObjectForInstructionScripts (input : jsstring)
  : jsstring :=
  let escaped := JSON_stringify input in
  replaceAll regexForJSStringsInScripts escaped.

(* ------------------------------------------------------------------ *)
(** ** Style dependencies of a boundary *)

Definition arrayFirstOpenBracket : Chunk :=
  Precomputed "arrayFirstOpenBracket" (js "[").
Definition arraySubsequentOpenBracket : Chunk :=
  Precomputed "arraySubsequentOpenBracket" (js ",[").
Definition arrayInterstitial : Chunk :=
  Precomputed "arrayInterstitial" (js ",").
Definition arrayCloseBracket : Chunk :=
  Precomputed "arrayCloseBracket" (js "]").

Definition resourceInShell (r : Resource) : bool :=
  match r with
  | StyleResource _ _ _ _ inShell _ _ => inShell
  | _ => false
  end.

(** [hasStyleResourceDependencies(boundaryResources)] on the boundary
    set at [b]. *)
Definition hasStyleResourceDependencies (resources : Resources) (b : nat)
  : bool :=
  match boundarySets resources !! b with
  | Some s =>
      existsb (fun a =>
        match heap resources !! a with
        | Some r => negb (resourceInShell r)
        | None => false
        end) s
  | None => false
  end.

(** [writeStyleResourceAttributeInJS] and [...InAttr]; [escape] is the
    escaping applied to the name and to the value. *)
Definition writeStyleResourceAttribute (escape : jsstring -> jsstring)
    (name : jsstring) (value : JsValue) : W unit :=
  match value with
  | VFunction | VSymbol => mret tt
  | _ =>
      let reserved :=
        existsb (jseqb name)
          [js "innerHTML"; js "dangerouslySetInnerHTML";
           js "suppressContentEditableWarning";
           js "suppressHydrationWarning"; js "style"] in
      let isEventName :=
        match name with
        | c0 :: c1 :: _ :: _ =>
            ((c0 =? 111) || (c0 =? 79)) && ((c1 =? 110) || (c1 =? 78))
        | _ => false
        end in
      let emit (attributeName : jsstring) : W unit :=
        if isEventName then mret tt
        else
          attributeValue ← orThrow (stringCoercion value);
          writeChunk arrayInterstitial ;;
          writeChunk (stringToChunk (escape attributeName)) ;;
          writeChunk arrayInterstitial ;;
          writeChunk (stringToChunk (escape attributeValue)) in
      if reserved then mret tt
      else if jseqb name (js "className") then emit (js "class")
      else if jseqb name (js "hidden") then
        match value with
        | VBool false => mret tt
        | _ => emit (toLowerCase name)
        end
      else if jseqb name (js "src") || jseqb name (js "href") then
        attributeValue ← orThrow (stringCoercion value);
        (if sanitizeURL attributeValue then mret tt else throw) ;;
        emit (toLowerCase name)
      else if isAttributeNameSafe name then emit (toLowerCase name)
      else mret tt
  end.

(** The loop over the props in [writeStyleResourceDependencyInJS] and
    [...InAttr]. *)
Fixpoint writeStyleResourceDependency_props (escape : jsstring -> jsstring)
    (props : Props) : W unit :=
  match props with
  | [] => mret tt
  | (propKey, propValue) :: rest =>
      (if nullish propValue then mret tt
       else if existsb (jseqb propKey)
                 [js "href"; js "rel"; js "precedence"; js "data-precedence"]
       then mret tt
       else if jseqb propKey (js "children")
               || jseqb propKey (js "dangerouslySetInnerHTML")
       then throw
       else writeStyleResourceAttribute escape propKey propValue) ;;
      writeStyleResourceDependency_props escape rest
  end.

Definition writeStyleResourceDependencyHrefOnly
    (escape : jsstring -> jsstring) (href : jsstring) : W unit :=
  writeChunk (stringToChunk (escape href)).

Definition writeStyleResourceDependency (escape : jsstring -> jsstring)
    (href precedence : jsstring) (props : Props) : W unit :=
  (if sanitizeURL href then mret tt else throw) ;;
  writeChunk (stringToChunk (escape href)) ;;
  writeChunk arrayInterstitial ;;
  writeChunk (stringToChunk (escape precedence)) ;;
  writeStyleResourceDependency_props escape props.

(** The callback of [boundaryResources.forEach]; [first] tells whether
    the next array is the first one and is returned updated. *)
Definition writeStyleResourceDependencyEntry (escape : jsstring -> jsstring)
    (a : addr) (first : bool) : W bool :=
  resources ← getResources;
  let nextArrayOpenBrackChunk :=
    if first then arrayFirstOpenBracket else arraySubsequentOpenBracket in
  match heap resources !! a with
  | Some (StyleResource href precedence props flushed_ inShell hint _) =>
      if inShell then mret first
      else if flushed_ then
        writeChunk nextArrayOpenBrackChunk ;;
        writeStyleResourceDependencyHrefOnly escape href ;;
        writeChunk arrayCloseBracket ;;
        mret false
      else
        writeChunk nextArrayOpenBrackChunk ;;
        writeStyleResourceDependency escape href precedence props ;;
        writeChunk arrayCloseBracket ;;
        setFlushed a ;;
        setFlushed hint ;;
        mret false
  | _ => mret first
  end.

Fixpoint writeStyleResourceDependencyEntries (escape : jsstring -> jsstring)
    (s : list addr) (first : bool) : W unit :=
  match s with
  | [] => mret tt
  | a :: rest =>
      first' ← writeStyleResourceDependencyEntry escape a first;
      writeStyleResourceDependencyEntries escape rest first'
  end.

Definition writeStyleResourceDependencies (escape : jsstring -> jsstring)
    (b : nat) : W unit :=
  writeChunk arrayFirstOpenBracket ;;
  resources ← getResources;
  writeStyleResourceDependencyEntries escape
    (match boundarySets resources !! b with Some s => s | None => [] end)
    true ;;
  writeChunk arrayCloseBracket.

Definition writeStyleResourceDependenciesInJS (b : nat) : W unit :=
  writeStyleResourceDependencies escapeJSObjectForInstructionScripts b.

Definition writeStyleResourceDependenciesInAttr (b : nat) : W unit :=
  writeStyleResourceDependencies
    (fun s => escapeTextForBrowser (JSON_stringify s)) b.

(* ------------------------------------------------------------------ *)
(** ** Instructions *)

Definition completeSegmentScript1Full : Chunk :=
  Precomputed "completeSegmentScript1Full"
    (completeSegmentFunctionString ++ js "$RS(" ++ dq).
Definition completeSegmentScript1Partial : Chunk :=
  Precomputed "completeSegmentScript1Partial" (js "$RS(" ++ dq).
Definition completeSegmentScript2 : Chunk :=
  Precomputed "completeSegmentScript2" (dq ++ js "," ++ dq).
Definition completeSegmentScriptEnd : Chunk :=
  Precomputed "completeSegmentScriptEnd" (dq ++ js ")</script>").

Definition completeSegmentData1 : Chunk :=
  Precomputed "completeSegmentData1"
    (js "<template data-ri=" ++ dq ++ js "s" ++ dq ++ js " data-sid=" ++ dq).
Definition completeSegmentData2 : Chunk :=
  Precomputed "completeSegmentData2" (dq ++ js " data-pid=" ++ dq).
Definition completeSegmentDataEnd : Chunk := dataElementQuotedEnd.

(** [!enableFizzExternalRuntime ||
     responseState.streamingFormat === ScriptStreamingFormat] *)
Definition scriptFormatOf (responseState : ResponseState) : bool :=
  negb enableFizzExternalRuntime
  || (streamingFormat responseState =? ScriptStreamingFormat).

Definition writeCompletedSegmentInstruction (contentSegmentID : N) : W bool :=
  responseState ← getResponse;
  let scriptFormat := scriptFormatOf responseState in
  (if scriptFormat then
     writeChunk (startInlineScript responseState) ;;
     if negb (sentCompleteSegmentFunction responseState) then
       modifyResponse (set_sentCompleteSegmentFunction true) ;;
       writeChunk completeSegmentScript1Full
     else writeChunk completeSegmentScript1Partial
   else writeChunk completeSegmentData1) ;;
  writeChunk (segmentPrefix responseState) ;;
  let formattedID := stringToChunk (toString16 contentSegmentID) in
  writeChunk formattedID ;;
  (if scriptFormat then writeChunk completeSegmentScript2
   else writeChunk completeSegmentData2) ;;
  writeChunk (placeholderPrefix responseState) ;;
  writeChunk formattedID ;;
  if scriptFormat then writeChunkAndReturn completeSegmentScriptEnd
  else writeChunkAndReturn completeSegmentDataEnd.

Definition completeBoundaryFunction : Chunk :=
  Precomputed "completeBoundaryFunction" completeBoundaryFunctionString.
Definition completeContainerFunction : Chunk :=
  Precomputed "completeContainerFunction" completeContainerFunctionString.
Definition styleInsertionFunction : Chunk :=
  Precomputed "styleInsertionFunction" styleInsertionFunctionString.

Definition completeBoundaryScript1 : Chunk :=
  Precomputed "completeBoundaryScript1" (js "$RC(" ++ dq).
Definition completeBoundaryWithStylesScript1 : Chunk :=
  Precomputed "completeBoundaryWithStylesScript1" (js "$RR($RC," ++ dq).
Definition completeContainerScript1 : Chunk :=
  Precomputed "completeContainerScript1" (js "$RK(" ++ dq).
Definition completeContainerWithStylesScript1 : Chunk :=
  Precomputed "completeContainerWithStylesScript1" (js "$RR($RK," ++ dq).
Definition completeBoundaryOrContainerScript2 : Chunk :=
  Precomputed "completeBoundaryOrContainerScript2" (dq ++ js "," ++ dq).
Definition completeBoundaryOrContainerScript2a : Chunk :=
  Precomputed "completeBoundaryOrContainerScript2a" (dq ++ js ",").
Definition completeBoundaryOrContainerScript3 : Chunk :=
  Precomputed "completeBoundaryOrContainerScript3" dq.
Definition completeBoundaryOrContainerScriptEnd : Chunk :=
  Precomputed "completeBoundaryOrContainerScriptEnd" (js ")</script>").

Definition bootstrapContainerOpenStart : Chunk :=
  Precomputed "bootstrapContainerOpenStart" (js "<template id=" ++ dq ++ js "bs:").
Definition bootstrapContainerOpenEnd : Chunk :=
  Precomputed "bootstrapContainerOpenEnd" (dq ++ js ">").
Definition bootstrapContainerClose : Chunk :=
  Precomputed "bootstrapContainerClose" (js "</template>").

Definition completeContainerData1 : Chunk :=
  Precomputed "completeContainerData1"
    (js "<template data-ri=" ++ dq ++ js "c" ++ dq ++ js " data-bid=" ++ dq).
Definition completeContainerWithStylesData1 : Chunk :=
  Precomputed "completeContainerWithStylesData1"
    (js "<template data-ri=" ++ dq ++ js "rc" ++ dq ++ js " data-bid=" ++ dq).
Definition completeBoundaryData1 : Chunk :=
  Precomputed "completeBoundaryData1"
    (js "<template data-ri=" ++ dq ++ js "b" ++ dq ++ js " data-bid=" ++ dq).
Definition completeBoundaryWithStylesData1 : Chunk :=
  Precomputed "completeBoundaryWithStylesData1"
    (js "<template data-ri=" ++ dq ++ js "rb" ++ dq ++ js " data-bid=" ++ dq).
Definition completeBoundaryOrContainerData2 : Chunk :=
  Precomputed "completeBoundaryOrContainerData2" (dq ++ js " data-sid=" ++ dq).
Definition completeBoundaryOrContainerData3 : Chunk :=
  Precomputed "completeBoundaryOrContainerData3" (dq ++ js " data-sty=" ++ dq).
Definition completeBoundaryOrContainerDataEmptyEnd : Chunk :=
  dataElementQuotedEnd.

(** The bootstrap chunks inside a [<template id="bs:...">] container. *)
Definition writeBootstrapContainer (formattedContentID : Chunk) : W unit :=
  responseState ← getResponse;
  match bootstrapChunks responseState with
  | _ :: _ =>
      writeChunk bootstrapContainerOpenStart ;;
      writeChunk (segmentPrefix responseState) ;;
      writeChunk formattedContentID ;;
      writeChunk bootstrapContainerOpenEnd ;;
      writeChunks (bootstrapChunks responseState) ;;
      writeChunk bootstrapContainerClose
  | [] => mret tt
  end.

(** [if (!responseState.sentX) { responseState.sentX = true;
     writeChunk(destination, body) }] *)
Definition writeOnce (sent : ResponseState -> bool)
    (setSent : bool -> ResponseState -> ResponseState) (body : Chunk)
  : W unit :=
  responseState ← getResponse;
  if negb (sent responseState) then
    modifyResponse (setSent true) ;;
    writeChunk body
  else mret tt.

Definition writeCompletedBoundaryInstruction (boundaryID : SuspenseBoundaryID)
    (contentSegmentID : N) (boundaryResources_ : nat) : W bool :=
  match boundaryID with
  | UNINITIALIZED_SUSPENSE_BOUNDARY_ID => throw
  | BoundaryID _ boundaryChunk =>
  resources ← getResources;
  let hasStyleDependencies :=
    enableFloat && hasStyleResourceDependencies resources boundaryResources_ in
  let formattedContentID := stringToChunk (toString16 contentSegmentID) in
  responseState ← getResponse;
  let scriptFormat := scriptFormatOf responseState in
  let isContainer := isContainerBoundaryID boundaryID responseState in
  if scriptFormat then
    if hasStyleDependencies then
      (if isContainer then writeBootstrapContainer formattedContentID
       else mret tt) ;;
      writeChunk (startInlineScript responseState) ;;
      writeOnce sentStyleInsertionFunction set_sentStyleInsertionFunction
        (clonePrecomputedChunk styleInsertionFunction) ;;
      (if isContainer then
         writeOnce sentCompleteContainerFunction
           set_sentCompleteContainerFunction completeContainerFunction ;;
         writeChunk completeContainerWithStylesScript1
       else
         writeOnce sentCompleteBoundaryFunction
           set_sentCompleteBoundaryFunction completeBoundaryFunction ;;
         writeChunk completeBoundaryWithStylesScript1) ;;
      writeChunk boundaryChunk ;;
      writeChunk completeBoundaryOrContainerScript2 ;;
      writeChunk (segmentPrefix responseState) ;;
      writeChunk formattedContentID ;;
      writeChunk completeBoundaryOrContainerScript2a ;;
      writeStyleResourceDependenciesInJS boundaryResources_ ;;
      writeChunkAndReturn completeBoundaryOrContainerScriptEnd
    else
      writeChunk (startInlineScript responseState) ;;
      (if isContainer then
         writeOnce sentCompleteContainerFunction
           set_sentCompleteContainerFunction completeContainerFunction ;;
         writeChunk completeContainerScript1
       else
         writeOnce sentCompleteBoundaryFunction
           set_sentCompleteBoundaryFunction completeBoundaryFunction ;;
         writeChunk completeBoundaryScript1) ;;
      writeChunk boundaryChunk ;;
      writeChunk completeBoundaryOrContainerScript2 ;;
      writeChunk (segmentPrefix responseState) ;;
      writeChunk formattedContentID ;;
      writeChunk completeBoundaryOrContainerScript3 ;;
      r ← writeChunkAndReturn completeBoundaryOrContainerScriptEnd;
      if isContainer then
        writeChunks (bootstrapChunks responseState) ;; mret true
      else mret r
  else
    if hasStyleDependencies then
      (if isContainer then
         writeBootstrapContainer formattedContentID ;;
         writeChunk completeContainerWithStylesData1
       else writeChunk completeBoundaryWithStylesData1) ;;
      writeChunk boundaryChunk ;;
      writeChunk completeBoundaryOrContainerData2 ;;
      writeChunk (segmentPrefix responseState) ;;
      writeChunk formattedContentID ;;
      writeChunk completeBoundaryOrContainerData3 ;;
      writeStyleResourceDependenciesInAttr boundaryResources_ ;;
      writeChunkAndReturn completeBoundaryOrContainerDataEmptyEnd
    else
      (if isContainer then
         writeBootstrapContainer formattedContentID ;;
         writeChunk completeContainerData1
       else writeChunk completeBoundaryData1) ;;
      writeChunk boundaryChunk ;;
      writeChunk completeBoundaryOrContainerData2 ;;
      writeChunk (segmentPrefix responseState) ;;
      writeChunk formattedContentID ;;
      writeChunkAndReturn completeBoundaryOrContainerDataEmptyEnd
  end.

Definition clientRenderScript1Full : Chunk :=
  Precomputed "clientRenderScript1Full"
    (clientRenderFunctionString ++ js "$RX(" ++ dq).
Definition clientRenderScript1Partial : Chunk :=
  Precomputed "clientRenderScript1Partial" (js "$RX(" ++ dq).
Definition clientRenderScript1A : Chunk :=
  Precomputed "clientRenderScript1A" dq.
Definition clientRenderErrorScriptArgInterstitial : Chunk :=
  Precomputed "clientRenderErrorScriptArgInterstitial" (js ",").
Definition clientRenderScriptEnd : Chunk :=
  Precomputed "clientRenderScriptEnd" (js ")</script>").

Definition clientRenderData1 : Chunk :=
  Precomputed "clientRenderData1"
    (js "<template data-ri=" ++ dq ++ js "x" ++ dq ++ js " data-bid=" ++ dq).
Definition clientRenderData2 : Chunk :=
  Precomputed "clientRenderData2" (dq ++ js " data-dgst=" ++ dq).
Definition clientRenderData3 : Chunk :=
  Precomputed "clientRenderData3" (dq ++ js " data-msg=" ++ dq).
Definition clientRenderData4 : Chunk :=
  Precomputed "clientRenderData4" (dq ++ js " data-stck=" ++ dq).
Definition clientRenderDataEnd : Chunk := dataElementQuotedEnd.

(** [a || b || c] on values of type [?string]. *)
Definition anyTruthy (l : list (option jsstring)) : bool :=
  existsb (fun o => match nonEmpty o with Some _ => true | None => false end) l.

Definition writeClientRenderBoundaryInstruction
    (boundaryID : SuspenseBoundaryID)
    (errorDigest errorMessage errorComponentStack : option jsstring)
  : W bool :=
  responseState ← getResponse;
  let scriptFormat := scriptFormatOf responseState in
  if isContainerBoundaryID boundaryID responseState then
    let bootstrapChunks_ :=
      match fallbackBootstrapChunks responseState with
      | Some chunks => chunks
      | None => bootstrapChunks responseState
      end in
    writeChunks bootstrapChunks_ ;; mret true
  else
    (if scriptFormat then
       writeChunk (startInlineScript responseState) ;;
       if negb (sentClientRenderFunction responseState) then
         modifyResponse (set_sentClientRenderFunction true) ;;
         writeChunk clientRenderScript1Full
       else writeChunk clientRenderScript1Partial
     else writeChunk clientRenderData1) ;;
    match boundaryID with
    | UNINITIALIZED_SUSPENSE_BOUNDARY_ID => throw
    | BoundaryID _ boundaryChunk =>
        writeChunk boundaryChunk ;;
        (if scriptFormat then writeChunk clientRenderScript1A else mret tt) ;;
        (if anyTruthy [errorDigest; errorMessage; errorComponentStack] then
           if scriptFormat then
             writeChunk clientRenderErrorScriptArgInterstitial ;;
             writeChunk (stringToChunk
               (escapeJSStringsForInstructionScripts
                  (orEmpty (nonEmpty errorDigest))))
           else
             writeChunk clientRenderData2 ;;
             writeChunk (stringToChunk
               (escapeTextForBrowser (orEmpty (nonEmpty errorDigest))))
         else mret tt) ;;
        (if anyTruthy [errorMessage; errorComponentStack] then
           if scriptFormat then
             writeChunk clientRenderErrorScriptArgInterstitial ;;
             writeChunk (stringToChunk
               (escapeJSStringsForInstructionScripts
                  (orEmpty (nonEmpty errorMessage))))
           else
             writeChunk clientRenderData3 ;;
             writeChunk (stringToChunk
               (escapeTextForBrowser (orEmpty (nonEmpty errorMessage))))
         else mret tt) ;;
        (match nonEmpty errorComponentStack with
         | Some stack =>
             if scriptFormat then
               writeChunk clientRenderErrorScriptArgInterstitial ;;
               writeChunk (stringToChunk
                 (escapeJSStringsForInstructionScripts stack))
             else
               writeChunk clientRenderData4 ;;
               writeChunk (stringToChunk (escapeTextForBrowser stack))
         | None => mret tt
         end) ;;
        if scriptFormat then writeChunkAndReturn clientRenderScriptEnd
        else writeChunkAndReturn clientRenderDataEnd
    end.

End FormatConfig.
(* ================================================================== *)
(** * Auxiliary definitions of the statements *)
(* ================================================================== *)

Section Statements.

Context `{Host}.

(** Pushing a run of text nodes, the flag returned by one push being the
    [textEmbedded] argument of the next. *)
Fixpoint pushTextInstances (texts : list jsstring)
    (responseState : ResponseState) (textEmbedded : bool)
  : list Chunk * bool :=
  match texts with
  | [] => ([], textEmbedded)
  | text :: rest =>
      let '(cs, embedded) := pushTextInstance text responseState textEmbedded in
      let '(more, final) := pushTextInstances rest responseState embedded in
      (cs ++ more, final)
  end.

(** The encoded chunks of the texts with a separator between
    neighbours. *)
Fixpoint separated (texts : list jsstring) : list Chunk :=
  match texts with
  | [] => []
  | [t] => [stringToChunk (encodeHTMLTextNode t)]
  | t :: rest =>
      stringToChunk (encodeHTMLTextNode t) :: textSeparator :: separated rest
  end.

Definition nonEmptyText (t : jsstring) : bool :=
  match t with [] => false | _ => true end.

End Statements.

(** The element types whose close tag [pushEndInstance] omits, as the
    spec lists the void elements, [menuitem] left out. *)
Definition omittedCloseTags : list jsstring :=
  [js "area"; js "base"; js "br"; js "col"; js "embed"; js "hr"; js "img";
   js "input"; js "keygen"; js "link"; js "param"; js "source"; js "track";
   js "wbr"].

(** ** Words of the statements about escaping *)

(** ASCII lower-casing of a code unit. *)
Definition lowerASCII (c : N) : N :=
  if (65 <=? c) && (c <=? 90) then c + 32 else c.

(** [s] starts with the lower-case ASCII text [pat], letter case
    ignored. *)
Fixpoint startsWithIgnoringCase (pat s : jsstring) : bool :=
  match pat with
  | [] => true
  | p :: pat' =>
      match s with
      | [] => false
      | c :: s' => (lowerASCII c =? p) && startsWithIgnoringCase pat' s'
      end
  end.

(** The replacement of the letter of [<script] or [</script]. *)
Definition escapedS (c : N) : jsstring :=
  if c =? 115 then bs ++ js "u0073" else bs ++ js "u0053".

(** The code units that an inline script must not contain raw. *)
Definition breaksScript (c : N) : bool :=
  (c =? 60) || (c =? 8232) || (c =? 8233).

(** What the string escaper puts for one code unit of the JSON text. *)
Definition stringEscapeOf (c : N) : jsstring :=
  if c =? 60 then bs ++ js "u003c"
  else if c =? 8232 then bs ++ js "u2028"
  else if c =? 8233 then bs ++ js "u2029"
  else [c].

(** What the object escaper puts for one code unit of the JSON text. *)
Definition objectEscapeOf (c : N) : jsstring :=
  if c =? 38 then bs ++ js "u0026"
  else if c =? 62 then bs ++ js "u003e"
  else stringEscapeOf c.

(** No suffix of [s] starts with [<script] or [</script], in any letter
    casing. *)
Fixpoint noScriptTagIn (s : jsstring) : Prop :=
  match s with
  | [] => True
  | c :: rest =>
      (startsWithIgnoringCase (js "<script") (c :: rest) = false
       /\ startsWithIgnoringCase (js "</script") (c :: rest) = false)
      /\ noScriptTagIn rest
  end.

(** ** Reasoning about the write functions *)

(** The outcome of [m] from [s] satisfies [Q]. *)
Definition wp {A : Type} (m : W A) (s : Request)
    (Q : Request -> list Chunk -> option A -> Prop) : Prop :=
  match m s with (s', out, r) => Q s' out r end.

Definition outputOf {A : Type} (m : W A) (s : Request) : list Chunk :=
  snd (fst (m s)).
Definition stateAfter {A : Type} (m : W A) (s : Request) : Request :=
  fst (fst (m s)).
Definition resultOf {A : Type} (m : W A) (s : Request) : option A :=
  snd (m s).

(** A constant chunk, by the name of the constant. *)
Definition isConstant (names : list string) (c : Chunk) : bool :=
  match c with
  | Precomputed ident _ => existsb (String.eqb ident) names
  | Encoded _ => false
  end.

Definition countConstant (names : list string) (out : list Chunk) : nat :=
  length (filter (fun c => isConstant names c = true) out).

(** The fields of the response state that are set when the response is
    created and not assigned afterwards: [rs] is a later state of the
    response [rs0]. *)
Definition sameResponse (rs0 rs : ResponseState) : Prop :=
  bootstrapChunks rs = bootstrapChunks rs0
  /\ fallbackBootstrapChunks rs = fallbackBootstrapChunks rs0
  /\ requiresEmbedding rs = requiresEmbedding rs0
  /\ placeholderPrefix rs = placeholderPrefix rs0
  /\ segmentPrefix rs = segmentPrefix rs0
  /\ boundaryPrefix rs = boundaryPrefix rs0
  /\ containerBoundaryID rs = containerBoundaryID rs0
  /\ idPrefix rs = idPrefix rs0
  /\ streamingFormat rs = streamingFormat rs0
  /\ startInlineScript rs = startInlineScript rs0
  /\ externalRuntimeConfig rs = externalRuntimeConfig rs0.

Section InstructionStatements.

Context `{Host}.

(** Modelled from the spec: the walker that sequences the calls for a
    boundary (ReactFizzServer) is not among the sources.  Section 4.4
    gives the errored outcome: the marker [<!--$!-->], the fallback
    content, the marker [<!--/$-->], and the client-render instruction
    for the ID of the boundary. *)
Definition writeErroredBoundary (boundaryID : SuspenseBoundaryID)
    (errorDigest errorMessage errorComponentStack : option jsstring)
    (fallback : list Chunk) : W bool :=
  writeStartClientRenderedSuspenseBoundary errorDigest errorMessage
    errorComponentStack ;;
  writeChunks fallback ;;
  writeEndClientRenderedSuspenseBoundary ;;
  writeClientRenderBoundaryInstruction boundaryID errorDigest errorMessage
    errorComponentStack.

(** The chunks that open a client-render instruction, and those that
    open the completion of a boundary. *)
Definition clientRenderStarts : list string :=
  ["clientRenderScript1Full"; "clientRenderScript1Partial";
   "clientRenderData1"].
Definition completeBoundaryStarts : list string :=
  ["completeBoundaryScript1"; "completeBoundaryWithStylesScript1";
   "completeBoundaryData1"; "completeBoundaryWithStylesData1"].

Definition instructionStarts : list string :=
  clientRenderStarts ++ completeBoundaryStarts.

(** The instruction kinds and the writes of a response. *)
Inductive InstructionKind : Type :=
| CompleteSegment
| CompleteBoundary
| CompleteContainer
| ClientRender
| StyleInsertion.

(** The constant that holds the body of the helper of a kind. *)
Definition helperBody (k : InstructionKind) : string :=
  match k with
  | CompleteSegment => "completeSegmentScript1Full"
  | CompleteBoundary => "completeBoundaryFunction"
  | CompleteContainer => "completeContainerFunction"
  | ClientRender => "clientRenderScript1Full"
  | StyleInsertion => "styleInsertionFunction"
  end.

Definition allHelperBodies : list string :=
  map helperBody
    [CompleteSegment; CompleteBoundary; CompleteContainer; ClientRender;
     StyleInsertion].

Definition sentFunction (k : InstructionKind) (rs : ResponseState) : bool :=
  match k with
  | CompleteSegment => sentCompleteSegmentFunction rs
  | CompleteBoundary => sentCompleteBoundaryFunction rs
  | CompleteContainer => sentCompleteContainerFunction rs
  | ClientRender => sentClientRenderFunction rs
  | StyleInsertion => sentStyleInsertionFunction rs
  end.

Inductive Instruction : Type :=
| CompletedSegment (contentSegmentID : N)
| CompletedBoundary (boundaryID : SuspenseBoundaryID) (contentSegmentID : N)
    (boundaryResources_ : nat)
| ClientRenderBoundary (boundaryID : SuspenseBoundaryID)
    (errorDigest errorMessage errorComponentStack : option jsstring).

Definition writeInstruction (i : Instruction) : W bool :=
  match i with
  | CompletedSegment id => writeCompletedSegmentInstruction id
  | CompletedBoundary boundaryID id b =>
      writeCompletedBoundaryInstruction boundaryID id b
  | ClientRenderBoundary boundaryID d m s =>
      writeClientRenderBoundaryInstruction boundaryID d m s
  end.

(** The writes of a response, one after the other; a throw ends them.
    The result lists, for every write that was begun, the instruction,
    the state it started from and the chunks it wrote. *)
Fixpoint writeInstructions (instrs : list Instruction) (s : Request)
  : list (Instruction * Request * list Chunk) :=
  match instrs with
  | [] => []
  | i :: rest =>
      match writeInstruction i s with
      | (s', out, Some _) => (i, s, out) :: writeInstructions rest s'
      | (s', out, None) => [(i, s, out)]
      end
  end.

(** The ID names a boundary: it is not [null]. *)
Definition assigned (boundaryID : SuspenseBoundaryID) : bool :=
  match boundaryID with
  | UNINITIALIZED_SUSPENSE_BOUNDARY_ID => false
  | BoundaryID _ _ => true
  end.

(** Instruction [i], written from state [s], invokes the helper of kind
    [k]. *)
Definition invokes (k : InstructionKind) (i : Instruction) (s : Request)
  : bool :=
  match k, i with
  | CompleteSegment, CompletedSegment _ => true
  | CompleteBoundary, CompletedBoundary boundaryID _ _ =>
      assigned boundaryID
      && negb (isContainerBoundaryID boundaryID (req_response s))
  | CompleteContainer, CompletedBoundary boundaryID _ _ =>
      assigned boundaryID
      && isContainerBoundaryID boundaryID (req_response s)
  | StyleInsertion, CompletedBoundary boundaryID _ b =>
      assigned boundaryID
      && hasStyleResourceDependencies (req_resources s) b
  | ClientRender, ClientRenderBoundary boundaryID _ _ _ =>
      negb (isContainerBoundaryID boundaryID (req_response s))
  | _, _ => false
  end.

(** The chunk of a boundary ID was encoded for the response, as
    [assignSuspenseBoundaryID] and [createResponseState] do. *)
Definition encodedID (boundaryID : SuspenseBoundaryID) : Prop :=
  match boundaryID with
  | UNINITIALIZED_SUSPENSE_BOUNDARY_ID => True
  | BoundaryID _ chunk => exists content, chunk = Encoded content
  end.

Definition instructionID (i : Instruction) : SuspenseBoundaryID :=
  match i with
  | CompletedSegment _ => UNINITIALIZED_SUSPENSE_BOUNDARY_ID
  | CompletedBoundary boundaryID _ _ => boundaryID
  | ClientRenderBoundary boundaryID _ _ _ => boundaryID
  end.

End InstructionStatements.

(** ** A host to evaluate the definitions on concrete inputs *)

Definition sampleHost : Host :=
  {| DEV := false;
     escapeTextForBrowser := fun s => s;
     JSON_stringify := fun s => dq ++ s ++ dq;
     toLowerCase := fun s => s;
     stringCoercion := fun v =>
       match v with
       | VString s => Some s
       | VBool true => Some (js "true")
       | VBool false => Some (js "false")
       | _ => None
       end;
     isAttributeNameSafe := fun _ => true;
     sanitizeURL := fun _ => true;
     pushAttribute := fun name value =>
       match value with
       | VString s =>
           Some [Encoded (js " "); Encoded name; Encoded (js "=" ++ dq);
                 Encoded s; Encoded dq]
       | VBool true =>
           Some [Encoded (js " "); Encoded name; Encoded (js "=" ++ dq ++ dq)]
       | _ => Some []
       end;
     clientRenderFunctionString := js "function $RX(){}";
     completeBoundaryFunctionString := js "function $RC(){}";
     completeContainerFunctionString := js "function $RK(){}";
     styleInsertionFunctionString := js "function $RR(){}";
     completeSegmentFunctionString := js "function $RS(){}" |}.

(** ** Words of the one-shot helper statement *)

(** The constants whose writes the statement counts: the helper bodies
    and the two short openers that replace a body. *)
Definition trackedConstants : list string :=
  ["completeSegmentScript1Full"; "completeBoundaryFunction";
   "completeContainerFunction"; "clientRenderScript1Full";
   "styleInsertionFunction"; "completeSegmentScript1Partial";
   "clientRenderScript1Partial"].

(** [m] leaves the response state alone and writes none of the tracked
    constants. *)
Definition quiet {A : Type} (m : W A) : Prop :=
  forall s,
    wp m s (fun s' out _ =>
      req_response s' = req_response s
      /\ countConstant trackedConstants out = 0%nat).

(** The response state of a request in the script format whose fixed
    chunks are none of the tracked constants. *)
Definition scriptResponse (rs : ResponseState) : Prop :=
  scriptFormatOf rs = true
  /\ isConstant trackedConstants (startInlineScript rs) = false
  /\ isConstant trackedConstants (segmentPrefix rs) = false
  /\ isConstant trackedConstants (placeholderPrefix rs) = false
  /\ countConstant trackedConstants (bootstrapChunks rs) = 0%nat
  /\ match fallbackBootstrapChunks rs with
     | Some chunks => countConstant trackedConstants chunks = 0%nat
     | None => True
     end.

(** The short opener that stands for the body of a helper once the body
    was sent, for the kinds whose body and opener share a chunk. *)
Definition shortOpener (k : InstructionKind) : list string :=
  match k with
  | CompleteSegment => ["completeSegmentScript1Partial"]
  | ClientRender => ["clientRenderScript1Partial"]
  | _ => []
  end.

(** What one write does to the count of a helper body, of its short
    opener, and to the flag of the kind. *)
Definition oneShotStep `{Host} (k : InstructionKind) (i : Instruction)
    (s s' : Request) (out : list Chunk) : Prop :=
  countConstant [helperBody k] out
  = (if invokes k i s && negb (sentFunction k (req_response s))
     then 1%nat else 0%nat)
  /\ countConstant (shortOpener k) out
     = (if invokes k i s && sentFunction k (req_response s)
        then length (shortOpener k) else 0%nat)
  /\ sentFunction k (req_response s')
     = sentFunction k (req_response s) || invokes k i s.

(** An entry of the list of writes invokes the helper of kind [k]. *)
Definition entryInvokes `{Host} (k : InstructionKind)
    (e : Instruction * Request * list Chunk) : bool :=
  invokes k (fst (fst e)) (snd (fst e)).

(** All the chunks of a list of writes. *)
Definition writtenBy (trace : list (Instruction * Request * list Chunk))
  : list Chunk :=
  concat (map snd trace).

(** ** Words of the preamble statements *)

(** The document that frames a response without content. *)
Definition documentSkeleton : jsstring :=
  js "<!DOCTYPE html><html><head></head><body></body></html>".

(** Nothing was rendered into the response and nothing was flushed. *)
Definition nothingRendered (rs : ResponseState) : Prop :=
  rendered rs = NONE /\ flushed rs = NONE
  /\ htmlChunks rs = [] /\ headChunks rs = []
  /\ charsetChunks rs = [] /\ hoistableChunks rs = [].

(** The flush will preinitialize the external runtime. *)
Definition emitsExternalRuntime (rs : ResponseState)
    (willEmitInstructions : bool) : bool :=
  match externalRuntimeConfig rs with
  | Some _ => enableFizzExternalRuntime && willEmitInstructions
  | None => false
  end.

(* ================================================================== *)
(** * Properties of the text and tag emitters *)
(* ================================================================== *)

Section TextAndTags.

Context `{Host}.

Lemma pushTextInstances_embedded texts rs :
  pushTextInstances texts rs true
  = (flat_map (fun t => [textSeparator; stringToChunk (encodeHTMLTextNode t)])
       (filter (fun t => nonEmptyText t = true) texts), true).
Proof.
  induction texts as [|t rest IH]; [reflexivity|].
  destruct t as [|c t].
  - simpl. rewrite IH. reflexivity.
  - cbn [pushTextInstances pushTextInstance]. rewrite IH.
    rewrite filter_cons_True by reflexivity. reflexivity.
Qed.

Lemma separated_cons t rest :
  separated (t :: rest)
  = stringToChunk (encodeHTMLTextNode t)
    :: flat_map (fun t => [textSeparator; stringToChunk (encodeHTMLTextNode t)])
         rest.
Proof.
  revert t. induction rest as [|u rest IH]; intros t; [reflexivity|].
  change (separated (t :: u :: rest))
    with (stringToChunk (encodeHTMLTextNode t) :: textSeparator
          :: separated (u :: rest)).
  rewrite IH. reflexivity.
Qed.

(** C9. [pushTextInstance] with the empty string appends nothing and
    returns [textEmbedded]; with a non-empty string it appends the
    escaped text, preceded by the separator exactly when [textEmbedded]
    is set, and returns [true].  Hence, threading the returned flag from
    [false], the separator stands between neighbouring non-empty texts
    and never before the first. *)
Theorem pushTextInstance_separator :
  (forall rs textEmbedded,
      pushTextInstance [] rs textEmbedded = ([], textEmbedded))
  /\ (forall c text rs,
         pushTextInstance (c :: text) rs false
         = ([stringToChunk (escapeTextForBrowser (c :: text))], true)
         /\ pushTextInstance (c :: text) rs true
            = ([textSeparator; stringToChunk (escapeTextForBrowser (c :: text))],
               true))
  /\ (forall texts rs,
         pushTextInstances texts rs false
         = (separated (filter (fun t => nonEmptyText t = true) texts),
            existsb nonEmptyText texts)).
Proof.
  split; [reflexivity|]. split; [intros; split; reflexivity|].
  intros texts rs. induction texts as [|t rest IH]; [reflexivity|].
  destruct t as [|c t].
  - simpl. rewrite IH. reflexivity.
  - cbn [pushTextInstances pushTextInstance].
    rewrite pushTextInstances_embedded.
    rewrite filter_cons_True by reflexivity.
    rewrite separated_cons. reflexivity.
Qed.

End TextAndTags.




(* ================================================================== *)
(** * Properties of the escapers *)
(* ================================================================== *)

(** ** The replace engine *)

Lemma replace_from_enough (exec : Exec) :
  consuming exec ->
  forall f1 f2 s, (length s <= f1)%nat -> (length s <= f2)%nat ->
    replace_from f1 exec s = replace_from f2 exec s.
Proof.
  intros Hc f1. induction f1 as [|f1 IH]; intros f2 s H1 H2.
  - destruct s; [|simpl in H1; lia]. destruct f2; reflexivity.
  - destruct s as [|c rest]; [destruct f2; reflexivity|].
    destruct f2 as [|f2]; [simpl in H2; lia|].
    simpl in *. destruct (exec (c :: rest)) as [[r after]|] eqn:E.
    + apply Hc in E. simpl in E. f_equal. apply IH; lia.
    + f_equal. apply IH; lia.
Qed.

(** A class of single code units with a replacement for each. *)
Lemma replace_from_unitwise (exec : Exec) (f : N -> option jsstring) :
  (forall c after,
      exec (c :: after)
      = match f c with Some r => Some (r, after) | None => None end) ->
  forall fuel s, (length s <= fuel)%nat ->
    replace_from fuel exec s
    = flat_map (fun c => match f c with Some r => r | None => [c] end) s.
Proof.
  intros Hexec fuel. induction fuel as [|fuel IH]; intros s Hlen.
  - destruct s; [reflexivity|simpl in Hlen; lia].
  - destruct s as [|c rest]; [reflexivity|].
    simpl in *. rewrite Hexec. destruct (f c).
    + f_equal. apply IH. lia.
    + simpl. f_equal. apply IH. lia.
Qed.

Section Escapers.

Context `{Host}.

Lemma escapeJSStrings_flat_map input :
  escapeJSStringsForInstructionScripts input
  = flat_map stringEscapeOf (JSON_stringify input).
Proof.
  unfold escapeJSStringsForInstructionScripts, replaceAll.
  rewrite (replace_from_unitwise regexForJSStringsInInstructionScripts
             (fun c => if c =? 60 then Some (bs ++ js "u003c")
                       else if c =? 8232 then Some (bs ++ js "u2028")
                       else if c =? 8233 then Some (bs ++ js "u2029")
                       else None)).
  - apply flat_map_ext. intros c. unfold stringEscapeOf.
    repeat (destruct (_ =? _); [reflexivity|]). reflexivity.
  - intros c after. simpl.
    repeat (destruct (_ =? _); [reflexivity|]). reflexivity.
  - lia.
Qed.

Lemma escapeJSObject_flat_map input :
  escapeJSObjectForInstructionScripts input
  = flat_map objectEscapeOf (JSON_stringify input).
Proof.
  unfold escapeJSObjectForInstructionScripts, replaceAll.
  rewrite (replace_from_unitwise regexForJSStringsInScripts
             (fun c => if c =? 38 then Some (bs ++ js "u0026")
                       else if c =? 62 then Some (bs ++ js "u003e")
                       else if c =? 60 then Some (bs ++ js "u003c")
                       else if c =? 8232 then Some (bs ++ js "u2028")
                       else if c =? 8233 then Some (bs ++ js "u2029")
                       else None)).
  - apply flat_map_ext. intros c. unfold objectEscapeOf, stringEscapeOf.
    repeat (destruct (_ =? _); [reflexivity|]). reflexivity.
  - intros c after. simpl.
    repeat (destruct (_ =? _); [reflexivity|]). reflexivity.
  - lia.
Qed.

Lemma stringEscapeOf_safe c :
  Forall (fun u => breaksScript u = false) (stringEscapeOf c).
Proof.
  unfold stringEscapeOf.
  destruct (c =? 60) eqn:E1; [repeat constructor|].
  destruct (c =? 8232) eqn:E2; [repeat constructor|].
  destruct (c =? 8233) eqn:E3; [repeat constructor|].
  constructor; [|constructor]. unfold breaksScript.
  rewrite E1, E2, E3. reflexivity.
Qed.

Lemma objectEscapeOf_safe c :
  Forall (fun u => breaksScript u = false /\ u <> 38 /\ u <> 62)
    (objectEscapeOf c).
Proof.
  unfold objectEscapeOf, stringEscapeOf.
  destruct (c =? 38) eqn:E4;
    [repeat constructor; discriminate|].
  destruct (c =? 62) eqn:E5;
    [repeat constructor; discriminate|].
  destruct (c =? 60) eqn:E1;
    [repeat constructor; discriminate|].
  destruct (c =? 8232) eqn:E2;
    [repeat constructor; discriminate|].
  destruct (c =? 8233) eqn:E3;
    [repeat constructor; discriminate|].
  constructor; [|constructor]. unfold breaksScript.
  rewrite E1, E2, E3. apply N.eqb_neq in E4, E5. auto.
Qed.

Lemma Forall_flat_map_intro {A B} (P : B -> Prop) (f : A -> list B) l :
  (forall a, Forall P (f a)) -> Forall P (flat_map f l).
Proof.
  intros Hf. induction l as [|a l IH]; simpl; [constructor|].
  apply Forall_app. split; [apply Hf|exact IH].
Qed.

(** C8. The instruction-script escapers return the [JSON.stringify]
    text of the input with every [<], U+2028 and U+2029 (and, for the
    object form, every [&] and [>]) replaced by its backslash-u escape;
    the result holds none of these code units raw. *)
Theorem instruction_script_escapers_safe :
  forall input,
    escapeJSStringsForInstructionScripts input
    = flat_map stringEscapeOf (JSON_stringify input)
    /\ Forall (fun u => breaksScript u = false)
         (escapeJSStringsForInstructionScripts input)
    /\ escapeJSObjectForInstructionScripts input
       = flat_map objectEscapeOf (JSON_stringify input)
    /\ Forall (fun u => breaksScript u = false /\ u <> 38 /\ u <> 62)
         (escapeJSObjectForInstructionScripts input).
Proof.
  intros input. split; [apply escapeJSStrings_flat_map|].
  split.
  - rewrite escapeJSStrings_flat_map.
    apply Forall_flat_map_intro, stringEscapeOf_safe.
  - split; [apply escapeJSObject_flat_map|].
    rewrite escapeJSObject_flat_map.
    apply Forall_flat_map_intro, objectEscapeOf_safe.
Qed.

End Escapers.

(** ** [escapeBootstrapScriptContent] *)

Lemma lowerASCII_lt c : (lowerASCII c =? 60) = (c =? 60).
Proof.
  unfold lowerASCII.
  destruct ((65 <=? c) && (c <=? 90)) eqn:E; [|reflexivity].
  apply andb_prop in E as [E1 E2].
  apply N.leb_le in E1. apply N.leb_le in E2.
  transitivity false; [apply N.eqb_neq; lia|symmetry; apply N.eqb_neq; lia].
Qed.

Lemma matchLetter_lowerASCII p c :
  97 <= p -> p <= 122 -> matchLetter p c = (lowerASCII c =? p).
Proof.
  intros Hp1 Hp2. unfold matchLetter, lowerASCII.
  destruct ((65 <=? c) && (c <=? 90)) eqn:E.
  - apply andb_prop in E as [E1 E2].
    apply N.leb_le in E1. apply N.leb_le in E2.
    replace (c =? p) with false by (symmetry; apply N.eqb_neq; lia).
    simpl. destruct (N.eqb_spec c (p - 32)), (N.eqb_spec (c + 32) p);
      try reflexivity; lia.
  - replace (c =? p - 32) with false; [apply orb_false_r|].
    symmetry. apply N.eqb_neq. intros ->.
    apply andb_false_iff in E as [E|E]; apply N.leb_gt in E; lia.
Qed.

Lemma matchLetters_startsWith pat s :
  Forall (fun p => 97 <= p /\ p <= 122) pat ->
  matchLetters pat s = startsWithIgnoringCase pat s.
Proof.
  intros Hpat. revert s.
  induction Hpat as [|p pat [Hp1 Hp2] _ IH]; intros s; [reflexivity|].
  destruct s as [|c s]; [reflexivity|]. simpl.
  rewrite matchLetter_lowerASCII by assumption. rewrite IH. reflexivity.
Qed.

Lemma cript_letters : Forall (fun p => 97 <= p /\ p <= 122) (js "cript").
Proof. repeat constructor; cbv; discriminate. Qed.

Lemma matchLetters_cript r :
  matchLetters (js "cript") r = startsWithIgnoringCase (js "cript") r.
Proof. apply matchLetters_startsWith, cript_letters. Qed.

Lemma matchLetter_s c : matchLetter 115 c = (lowerASCII c =? 115).
Proof. apply matchLetter_lowerASCII; lia. Qed.

(** The five letters after the s. *)
Lemma startsWith_cript r :
  startsWithIgnoringCase (js "cript") r = true ->
  exists c1 c2 c3 c4 c5 rest,
    r = c1 :: c2 :: c3 :: c4 :: c5 :: rest
    /\ Forall (fun c => (c =? 60) = false) [c1; c2; c3; c4; c5].
Proof.
  intros Hm.
  destruct r as [|c1 [|c2 [|c3 [|c4 [|c5 rest]]]]]; simpl in Hm;
    repeat rewrite ?andb_false_r in Hm; try discriminate.
  repeat match type of Hm with
         | _ && _ = true => apply andb_prop in Hm as [?E Hm]
         end.
  exists c1, c2, c3, c4, c5, rest. split; [reflexivity|].
  repeat constructor;
    rewrite <- lowerASCII_lt;
    match goal with
    | E : (lowerASCII ?c =? _) = true |- (lowerASCII ?c =? 60) = false =>
        apply N.eqb_eq in E; rewrite E; reflexivity
    end.
Qed.

Lemma lowerASCII_slash c : (lowerASCII c =? 47) = (c =? 47).
Proof.
  unfold lowerASCII.
  destruct ((65 <=? c) && (c <=? 90)) eqn:E; [|reflexivity].
  apply andb_prop in E as [E1 E2].
  apply N.leb_le in E1. apply N.leb_le in E2.
  transitivity false; [apply N.eqb_neq; lia|symmetry; apply N.eqb_neq; lia].
Qed.

Lemma lowerASCII_s_not_slash c :
  (lowerASCII c =? 115) = true -> (c =? 47) = false /\ (c =? 60) = false.
Proof.
  intros E. apply N.eqb_eq in E.
  rewrite <- lowerASCII_slash, <- lowerASCII_lt, E. split; reflexivity.
Qed.

(** The expression in terms of the two tag prefixes. *)
Lemma startsWith_open s :
  startsWithIgnoringCase (js "<script") s
  = match s with
    | c :: x :: rest =>
        (c =? 60) && (lowerASCII x =? 115)
        && startsWithIgnoringCase (js "cript") rest
    | _ => false
    end.
Proof.
  destruct s as [|c [|x rest]]; try reflexivity.
  - simpl. apply andb_false_r.
  - change (js "<script") with (60 :: 115 :: js "cript").
    cbn [startsWithIgnoringCase]. rewrite lowerASCII_lt.
    rewrite andb_assoc. reflexivity.
Qed.

Lemma startsWith_close s :
  startsWithIgnoringCase (js "</script") s
  = match s with
    | c :: d :: x :: rest =>
        (c =? 60) && (d =? 47) && (lowerASCII x =? 115)
        && startsWithIgnoringCase (js "cript") rest
    | _ => false
    end.
Proof.
  destruct s as [|c [|d [|x rest]]]; try reflexivity.
  - simpl. apply andb_false_r.
  - simpl. rewrite !andb_false_r. reflexivity.
  - change (js "</script") with (60 :: 47 :: 115 :: js "cript").
    cbn [startsWithIgnoringCase]. rewrite lowerASCII_lt, lowerASCII_slash.
    rewrite !andb_assoc. reflexivity.
Qed.

Lemma scriptRegex_letters_spec prefix r :
  scriptRegex_letters prefix r
  = match r with
    | x :: rest =>
        if (lowerASCII x =? 115) && startsWithIgnoringCase (js "cript") rest
        then Some (prefix, x, take 5 rest, drop 5 rest)
        else None
    | [] => None
    end.
Proof.
  destruct r as [|x rest]; [reflexivity|].
  unfold scriptRegex_letters. rewrite matchLetter_s, matchLetters_cript.
  reflexivity.
Qed.

Lemma scriptRegex_open x rest :
  (lowerASCII x =? 115) = true ->
  startsWithIgnoringCase (js "cript") rest = true ->
  scriptRegex (60 :: x :: rest)
  = Some ([60] ++ escapedS x ++ take 5 rest, drop 5 rest).
Proof.
  intros Hx Hr. unfold scriptRegex, scriptRegex_groups.
  destruct (lowerASCII_s_not_slash x Hx) as [Hs _].
  change (60 =? 60) with true. cbv iota. rewrite Hs.
  rewrite scriptRegex_letters_spec, Hx, Hr. reflexivity.
Qed.

Lemma scriptRegex_close x rest :
  (lowerASCII x =? 115) = true ->
  startsWithIgnoringCase (js "cript") rest = true ->
  scriptRegex (60 :: 47 :: x :: rest)
  = Some ([60; 47] ++ escapedS x ++ take 5 rest, drop 5 rest).
Proof.
  intros Hx Hr. unfold scriptRegex, scriptRegex_groups.
  change (60 =? 60) with true. change (47 =? 47) with true. cbv iota.
  rewrite scriptRegex_letters_spec, Hx, Hr. reflexivity.
Qed.

Lemma scriptRegex_None s :
  startsWithIgnoringCase (js "<script") s = false ->
  startsWithIgnoringCase (js "</script") s = false ->
  scriptRegex s = None.
Proof.
  rewrite startsWith_open, startsWith_close. intros Ho Hc.
  unfold scriptRegex, scriptRegex_groups.
  destruct s as [|c r0]; [reflexivity|].
  destruct (c =? 60) eqn:E60; [|reflexivity].
  rewrite !scriptRegex_letters_spec.
  destruct r0 as [|d r1]; [reflexivity|].
  cbv iota beta in Ho. rewrite andb_true_l in Ho. rewrite Ho.
  destruct (d =? 47) eqn:E47; [|reflexivity].
  rewrite scriptRegex_letters_spec.
  destruct r1 as [|x rest]; [reflexivity|].
  cbv iota beta in Hc. rewrite !andb_true_l in Hc. rewrite Hc. reflexivity.
Qed.

Lemma scriptRegex_cases s :
  (exists x rest,
      s = 60 :: x :: rest /\ (lowerASCII x =? 115) = true
      /\ startsWithIgnoringCase (js "cript") rest = true)
  \/ (exists x rest,
      s = 60 :: 47 :: x :: rest /\ (lowerASCII x =? 115) = true
      /\ startsWithIgnoringCase (js "cript") rest = true)
  \/ (startsWithIgnoringCase (js "<script") s = false
      /\ startsWithIgnoringCase (js "</script") s = false).
Proof.
  destruct (startsWithIgnoringCase (js "<script") s) eqn:Ho.
  - left. rewrite startsWith_open in Ho.
    destruct s as [|c [|x rest]]; try discriminate.
    apply andb_prop in Ho as [Ho Hr]. apply andb_prop in Ho as [Hc Hx].
    apply N.eqb_eq in Hc. subst c. eauto.
  - destruct (startsWithIgnoringCase (js "</script") s) eqn:Hc.
    + right. left. rewrite startsWith_close in Hc.
      destruct s as [|c [|d [|x rest]]]; try discriminate.
      apply andb_prop in Hc as [Hc Hr]. apply andb_prop in Hc as [Hc Hx].
      apply andb_prop in Hc as [Hc Hd].
      apply N.eqb_eq in Hc. apply N.eqb_eq in Hd. subst c d. eauto.
    + right. right. split; reflexivity.
Qed.

Lemma scriptRegex_consuming : consuming scriptRegex.
Proof.
  intros s r after Hs.
  destruct (scriptRegex_cases s) as [(x & rest & -> & Hx & Hr)
                                    |[(x & rest & -> & Hx & Hr)|[Ho Hc]]].
  - rewrite scriptRegex_open in Hs by assumption. inversion Hs; subst.
    rewrite length_drop. simpl. lia.
  - rewrite scriptRegex_close in Hs by assumption. inversion Hs; subst.
    rewrite length_drop. simpl. lia.
  - rewrite scriptRegex_None in Hs by assumption. discriminate.
Qed.

Lemma replace_from_step fuel exec c rest :
  replace_from (S fuel) exec (c :: rest)
  = match exec (c :: rest) with
    | Some (replacement, after) => replacement ++ replace_from fuel exec after
    | None => c :: replace_from fuel exec rest
    end.
Proof. reflexivity. Qed.

Lemma escape_fuel fuel s :
  (length s <= fuel)%nat ->
  replace_from fuel scriptRegex s = escapeBootstrapScriptContent s.
Proof.
  intros Hlen. unfold escapeBootstrapScriptContent, replaceAll.
  apply replace_from_enough; [apply scriptRegex_consuming| |]; lia.
Qed.

Lemma escape_nil : escapeBootstrapScriptContent [] = [].
Proof. reflexivity. Qed.

Lemma escape_plain c s :
  scriptRegex (c :: s) = None ->
  escapeBootstrapScriptContent (c :: s) = c :: escapeBootstrapScriptContent s.
Proof.
  intros Hn. unfold escapeBootstrapScriptContent at 1, replaceAll.
  cbn [length]. rewrite replace_from_step, Hn. reflexivity.
Qed.

Lemma escape_not_lt c s :
  (c =? 60) = false ->
  escapeBootstrapScriptContent (c :: s) = c :: escapeBootstrapScriptContent s.
Proof.
  intros Hc. apply escape_plain. unfold scriptRegex, scriptRegex_groups.
  rewrite Hc. reflexivity.
Qed.

(** After a match the five letters are copied. *)
Lemma escape_letters l rest :
  Forall (fun c => (c =? 60) = false) l ->
  escapeBootstrapScriptContent (l ++ rest)
  = l ++ escapeBootstrapScriptContent rest.
Proof.
  induction 1 as [|c l Hc _ IH]; [reflexivity|].
  simpl. rewrite escape_not_lt by assumption. rewrite IH. reflexivity.
Qed.

Lemma escape_open x rest :
  (lowerASCII x =? 115) = true ->
  startsWithIgnoringCase (js "cript") rest = true ->
  escapeBootstrapScriptContent (60 :: x :: rest)
  = 60 :: escapedS x ++ escapeBootstrapScriptContent rest.
Proof.
  intros Hx Hr. unfold escapeBootstrapScriptContent at 1, replaceAll.
  cbn [length]. rewrite replace_from_step, scriptRegex_open by assumption.
  rewrite escape_fuel by (rewrite length_drop; lia).
  destruct (startsWith_cript rest Hr)
    as (c1 & c2 & c3 & c4 & c5 & rest' & -> & Hl).
  change (c1 :: c2 :: c3 :: c4 :: c5 :: rest')
    with ([c1; c2; c3; c4; c5] ++ rest').
  rewrite escape_letters by assumption.
  simpl. rewrite <- !app_assoc. reflexivity.
Qed.

Lemma escape_close x rest :
  (lowerASCII x =? 115) = true ->
  startsWithIgnoringCase (js "cript") rest = true ->
  escapeBootstrapScriptContent (60 :: 47 :: x :: rest)
  = 60 :: 47 :: escapedS x ++ escapeBootstrapScriptContent rest.
Proof.
  intros Hx Hr. unfold escapeBootstrapScriptContent at 1, replaceAll.
  cbn [length]. rewrite replace_from_step, scriptRegex_close by assumption.
  rewrite escape_fuel by (rewrite length_drop; lia).
  destruct (startsWith_cript rest Hr)
    as (c1 & c2 & c3 & c4 & c5 & rest' & -> & Hl).
  change (c1 :: c2 :: c3 :: c4 :: c5 :: rest')
    with ([c1; c2; c3; c4; c5] ++ rest').
  rewrite escape_letters by assumption.
  simpl. rewrite <- !app_assoc. reflexivity.
Qed.

(** The output starts with [<] exactly when the input does. *)
Lemma escape_head s :
  match s with
  | c :: _ =>
      exists out, escapeBootstrapScriptContent s = c :: out
  | [] => escapeBootstrapScriptContent s = []
  end.
Proof.
  destruct s as [|c s]; [reflexivity|].
  destruct (scriptRegex_cases (c :: s)) as [(x & rest & E & Hx & Hr)
                                    |[(x & rest & E & Hx & Hr)|[Ho Hc]]].
  - inversion E; subst. rewrite escape_open by assumption. eauto.
  - inversion E; subst. rewrite escape_close by assumption. eauto.
  - rewrite escape_plain by (apply scriptRegex_None; assumption). eauto.
Qed.

(** A pattern without [<] sees the same before and after escaping. *)
Lemma startsWith_escape pat :
  Forall (fun p => (p =? 60) = false) pat ->
  forall s,
    startsWithIgnoringCase pat (escapeBootstrapScriptContent s)
    = startsWithIgnoringCase pat s.
Proof.
  induction 1 as [|p pat Hp _ IH]; intros s; [reflexivity|].
  destruct s as [|c s]; [reflexivity|].
  destruct (c =? 60) eqn:Hc.
  - apply N.eqb_eq in Hc. subst c.
    destruct (escape_head (60 :: s)) as [out ->].
    cbn [startsWithIgnoringCase].
    replace (lowerASCII 60 =? p) with false; [reflexivity|].
    symmetry. apply N.eqb_neq. intros E. change (lowerASCII 60) with 60 in E.
    subst p. discriminate.
  - rewrite escape_not_lt by assumption. cbn [startsWithIgnoringCase].
    rewrite IH. reflexivity.
Qed.

Lemma not_lt_no_tag c s :
  (c =? 60) = false ->
  startsWithIgnoringCase (js "<script") (c :: s) = false
  /\ startsWithIgnoringCase (js "</script") (c :: s) = false.
Proof.
  intros Hc. rewrite startsWith_open, startsWith_close.
  destruct s as [|d [|x rest]]; rewrite ?Hc; split; reflexivity.
Qed.

Lemma noScriptTagIn_app l s :
  Forall (fun c => (c =? 60) = false) l ->
  noScriptTagIn s -> noScriptTagIn (l ++ s).
Proof.
  induction 1 as [|c l Hc _ IH]; intros Hs; [exact Hs|].
  simpl. split; [|apply IH, Hs].
  apply (not_lt_no_tag c (l ++ s) Hc).
Qed.

Lemma escapedS_not_lt x : Forall (fun c => (c =? 60) = false) (escapedS x).
Proof. unfold escapedS. destruct (x =? 115); repeat constructor. Qed.

Lemma escapedS_head x : exists t, escapedS x = 92 :: t.
Proof. unfold escapedS. destruct (x =? 115); eauto. Qed.

Lemma escaped_open_no_tag u :
  startsWithIgnoringCase (js "<script") (60 :: 92 :: u) = false
  /\ startsWithIgnoringCase (js "</script") (60 :: 92 :: u) = false.
Proof.
  rewrite startsWith_open, startsWith_close.
  destruct u as [|? ?]; split; reflexivity.
Qed.

Lemma escaped_close_no_tag u :
  startsWithIgnoringCase (js "<script") (60 :: 47 :: 92 :: u) = false
  /\ startsWithIgnoringCase (js "</script") (60 :: 47 :: 92 :: u) = false.
Proof.
  rewrite startsWith_open, startsWith_close. split; reflexivity.
Qed.

Lemma escape_clean_aux n :
  forall s, (length s <= n)%nat ->
    noScriptTagIn (escapeBootstrapScriptContent s).
Proof.
  induction n as [|n IH]; intros s Hlen.
  - destruct s; [exact I|simpl in Hlen; lia].
  - destruct s as [|c s]; [exact I|]. simpl in Hlen.
    destruct (scriptRegex_cases (c :: s)) as [(x & rest & E & Hx & Hr)
                                    |[(x & rest & E & Hx & Hr)|[Ho Hc]]].
    + rewrite E, escape_open by assumption.
      assert (Hrest : noScriptTagIn (escapeBootstrapScriptContent rest)).
      { apply IH. inversion E; subst. simpl in Hlen. lia. }
      destruct (escapedS_head x) as [t Ht].
      split.
      * rewrite Ht. apply escaped_open_no_tag.
      * apply noScriptTagIn_app; [apply escapedS_not_lt|exact Hrest].
    + rewrite E, escape_close by assumption.
      assert (Hrest : noScriptTagIn (escapeBootstrapScriptContent rest)).
      { apply IH. inversion E; subst. simpl in Hlen. lia. }
      destruct (escapedS_head x) as [t Ht].
      split.
      * rewrite Ht. apply escaped_close_no_tag.
      * apply (noScriptTagIn_app [47]); [repeat constructor|].
        apply noScriptTagIn_app; [apply escapedS_not_lt|exact Hrest].
    + rewrite escape_plain by (apply scriptRegex_None; assumption).
      split; [|apply IH; lia].
      destruct (c =? 60) eqn:E60; [|apply not_lt_no_tag, E60].
      apply N.eqb_eq in E60. subst c.
      change (js "<script") with (60 :: js "script") in *.
      change (js "</script") with (60 :: js "/script") in *.
      cbn [startsWithIgnoringCase] in *.
      change (lowerASCII 60 =? 60) with true in *. cbn [andb] in *.
      rewrite !startsWith_escape by (repeat constructor).
      split; assumption.
Qed.

Lemma noScriptTagIn_suffix s :
  noScriptTagIn s ->
  forall pre post, s = pre ++ post ->
    startsWithIgnoringCase (js "<script") post = false
    /\ startsWithIgnoringCase (js "</script") post = false.
Proof.
  intros Hs pre. revert s Hs.
  induction pre as [|c pre IH]; intros s Hs post E.
  - simpl in E. subst post. destruct s; [split; reflexivity|apply Hs].
  - destruct s as [|d s]; [discriminate|]. inversion E; subst.
    apply (IH _ (proj2 Hs) _ eq_refl).
Qed.

(** C10. [escapeBootstrapScriptContent] replaces the letter s of every
    [<script] and [</script], in any letter casing, by its backslash-u
    escape ([u0073] for s, [u0053] for S) and copies everything else, so
    that no suffix of the result starts with [<script] or [</script] in
    any letter casing. *)
Theorem escapeBootstrapScriptContent_no_script_tag :
  escapeBootstrapScriptContent [] = []
  /\ (forall x rest,
        startsWithIgnoringCase (js "<script") (60 :: x :: rest) = true ->
        escapeBootstrapScriptContent (60 :: x :: rest)
        = 60 :: escapedS x ++ escapeBootstrapScriptContent rest)
  /\ (forall x rest,
        startsWithIgnoringCase (js "</script") (60 :: 47 :: x :: rest) = true ->
        escapeBootstrapScriptContent (60 :: 47 :: x :: rest)
        = 60 :: 47 :: escapedS x ++ escapeBootstrapScriptContent rest)
  /\ (forall c s,
        startsWithIgnoringCase (js "<script") (c :: s) = false ->
        startsWithIgnoringCase (js "</script") (c :: s) = false ->
        escapeBootstrapScriptContent (c :: s)
        = c :: escapeBootstrapScriptContent s)
  /\ (forall scriptText pre post,
        escapeBootstrapScriptContent scriptText = pre ++ post ->
        startsWithIgnoringCase (js "<script") post = false
        /\ startsWithIgnoringCase (js "</script") post = false).
Proof.
  split; [reflexivity|]. split; [|split; [|split]].
  - intros x rest Hs. rewrite startsWith_open in Hs.
    apply andb_prop in Hs as [Hs Hr]. apply andb_prop in Hs as [_ Hx].
    apply escape_open; assumption.
  - intros x rest Hs. rewrite startsWith_close in Hs.
    apply andb_prop in Hs as [Hs Hr]. apply andb_prop in Hs as [_ Hx].
    apply escape_close; assumption.
  - intros c s Ho Hc. apply escape_plain, scriptRegex_None; assumption.
  - intros scriptText pre post E.
    apply (noScriptTagIn_suffix (escapeBootstrapScriptContent scriptText)
             (escape_clean_aux (length scriptText) scriptText (le_n _))
             pre post E).
Qed.

Lemma escapeBootstrapScriptContent_no_script_tag_witness :
  escapeBootstrapScriptContent (js "a</SCRIPT><script>")
    = js "a" ++ (js "</" ++ bs ++ js "u0053CRIPT><" ++ bs ++ js "u0073cript>")
  /\ startsWithIgnoringCase (js "</script")
       (js "</" ++ bs ++ js "u0053CRIPT><" ++ bs ++ js "u0073cript>") = false.
Proof.
  split; [vm_compute; reflexivity|].
  pose proof escapeBootstrapScriptContent_no_script_tag
    as (_ & _ & _ & _ & Hall).
  apply (Hall (js "a</SCRIPT><script>") (js "a")). vm_compute. reflexivity.
Defined.

(* ================================================================== *)
(** * Rules for the write functions *)
(* ================================================================== *)

Lemma wp_run {A} (m : W A) s (Q : Request -> list Chunk -> option A -> Prop) :
  wp m s Q <-> Q (stateAfter m s) (outputOf m s) (resultOf m s).
Proof.
  unfold wp, stateAfter, outputOf, resultOf.
  destruct (m s) as [[s' out] r]. reflexivity.
Qed.

Lemma wp_eq {A} (m : W A) s x :
  wp m s (fun s' out r => (s', out, r) = x) -> m s = x.
Proof. unfold wp. destruct (m s) as [[s' out] r]. trivial. Qed.

Lemma wp_mono {A} (m : W A) s (Q Q' : Request -> list Chunk -> option A -> Prop) :
  (forall s' out r, Q s' out r -> Q' s' out r) -> wp m s Q -> wp m s Q'.
Proof.
  unfold wp. destruct (m s) as [[s' out] r]. intros HQ. apply HQ.
Qed.

Lemma wp_bind {A B} (m : W A) (f : A -> W B) s
    (Q : Request -> list Chunk -> option B -> Prop) :
  wp m s (fun s1 o1 r1 =>
    match r1 with
    | Some a => wp (f a) s1 (fun s2 o2 r2 => Q s2 (o1 ++ o2) r2)
    | None => Q s1 o1 None
    end) ->
  wp (m ≫= f) s Q.
Proof.
  unfold wp, mbind, W_bind. destruct (m s) as [[s1 o1] [a|]]; [|trivial].
  destruct (f a s1) as [[s2 o2] r2]. trivial.
Qed.

Lemma wp_mret {A} (a : A) s (Q : Request -> list Chunk -> option A -> Prop) :
  Q s [] (Some a) -> wp (mret a) s Q.
Proof. trivial. Qed.

Lemma wp_throw {A} s (Q : Request -> list Chunk -> option A -> Prop) :
  Q s [] None -> wp throw s Q.
Proof. trivial. Qed.

Lemma wp_writeChunk c s (Q : Request -> list Chunk -> option unit -> Prop) :
  Q s [c] (Some tt) -> wp (writeChunk c) s Q.
Proof. trivial. Qed.

Lemma wp_writeChunks cs s (Q : Request -> list Chunk -> option unit -> Prop) :
  Q s cs (Some tt) -> wp (writeChunks cs) s Q.
Proof. trivial. Qed.

Lemma wp_writeChunkAndReturn c s
    (Q : Request -> list Chunk -> option bool -> Prop) :
  Q s [c] (Some true) -> wp (writeChunkAndReturn c) s Q.
Proof. trivial. Qed.

Lemma wp_getResponse s (Q : Request -> list Chunk -> option ResponseState -> Prop) :
  Q s [] (Some (req_response s)) -> wp getResponse s Q.
Proof. trivial. Qed.

Lemma wp_getResources s (Q : Request -> list Chunk -> option Resources -> Prop) :
  Q s [] (Some (req_resources s)) -> wp getResources s Q.
Proof. trivial. Qed.

Lemma wp_modifyResponse f s (Q : Request -> list Chunk -> option unit -> Prop) :
  Q {| req_response := f (req_response s); req_resources := req_resources s |}
    [] (Some tt) ->
  wp (modifyResponse f) s Q.
Proof. trivial. Qed.

Lemma wp_modifyResources f s (Q : Request -> list Chunk -> option unit -> Prop) :
  Q {| req_response := req_response s; req_resources := f (req_resources s) |}
    [] (Some tt) ->
  wp (modifyResources f) s Q.
Proof. trivial. Qed.

Lemma wp_orThrow {A} (o : option A) s
    (Q : Request -> list Chunk -> option A -> Prop) :
  Q s [] o -> wp (orThrow o) s Q.
Proof. destruct o; trivial. Qed.

Lemma wp_withTarget {A} (m : W A) s
    (Q : Request -> list Chunk -> option (A * list Chunk) -> Prop) :
  wp m s (fun s1 target r =>
    match r with
    | Some a => Q s1 [] (Some (a, target))
    | None => Q s1 [] None
    end) ->
  wp (withTarget m) s Q.
Proof.
  unfold wp, withTarget. destruct (m s) as [[s1 o1] [a|]]; trivial.
Qed.

(** One step of symbolic execution. *)
Ltac wp_step :=
  lazymatch goal with
  | |- wp (_ ≫= _) _ _ => apply wp_bind
  | |- wp (mret _) _ _ => apply wp_mret
  | |- wp throw _ _ => apply wp_throw
  | |- wp (writeChunk _) _ _ => apply wp_writeChunk
  | |- wp (writeChunks _) _ _ => apply wp_writeChunks
  | |- wp (writeChunkAndReturn _) _ _ => apply wp_writeChunkAndReturn
  | |- wp getResponse _ _ => apply wp_getResponse
  | |- wp getResources _ _ => apply wp_getResources
  | |- wp (modifyResponse _) _ _ => apply wp_modifyResponse
  | |- wp (modifyResources _) _ _ => apply wp_modifyResources
  | |- wp (orThrow _) _ _ => apply wp_orThrow
  | |- wp (withTarget _) _ _ => apply wp_withTarget
  | |- wp (if ?b then _ else _) _ _ =>
      let E := fresh "E" in destruct b eqn:E
  | |- wp (match ?x with _ => _ end) _ _ =>
      let E := fresh "E" in destruct x eqn:E
  end; cbv beta iota.

Ltac wp_steps := repeat wp_step.


(* ================================================================== *)
(** * Client-rendered boundaries *)
(* ================================================================== *)

Section ClientRender.

Context `{Host}.

Lemma countConstant_app names a b :
  countConstant names (a ++ b) = (countConstant names a + countConstant names b)%nat.
Proof. unfold countConstant. rewrite filter_app, length_app. reflexivity. Qed.

Lemma countConstant_cons names c l :
  countConstant names (c :: l)
  = ((if isConstant names c then 1 else 0) + countConstant names l)%nat.
Proof.
  unfold countConstant. destruct (isConstant names c) eqn:E.
  - rewrite filter_cons_True by assumption. reflexivity.
  - rewrite filter_cons_False by (rewrite E; discriminate). reflexivity.
Qed.

Lemma writeStartClientRenderedSuspenseBoundary_spec d m st s :
  wp (writeStartClientRenderedSuspenseBoundary d m st) s
    (fun s' out r =>
       s' = s /\ r = Some true
       /\ exists template,
            out = startClientRenderedSuspenseBoundary :: template
            /\ countConstant instructionStarts template = 0%nat).
Proof.
  unfold writeStartClientRenderedSuspenseBoundary.
  wp_steps; (split; [reflexivity|]); (split; [reflexivity|]);
    eexists; (split; [reflexivity|]); reflexivity.
Qed.

(** The inline script opener of a created response is not the opener of
    an instruction. *)
Lemma startInlineScript_created
    identifierPrefix nonce bootstrapScriptContent bootstrapScripts
    bootstrapModules fallbackBootstrapScriptContent fallbackBootstrapScripts
    fallbackBootstrapModules externalRuntimeConfig_ containerID
    documentEmbedding names :
  existsb (String.eqb "startInlineScript") names = false ->
  isConstant names
    (startInlineScript
       (createResponseState identifierPrefix nonce bootstrapScriptContent
          bootstrapScripts bootstrapModules fallbackBootstrapScriptContent
          fallbackBootstrapScripts fallbackBootstrapModules
          externalRuntimeConfig_ containerID documentEmbedding)) = false.
Proof.
  intros Hn. unfold createResponseState. cbn [startInlineScript].
  destruct nonce; [reflexivity|exact Hn].
Qed.

Lemma writeClientRenderBoundaryInstruction_spec id d m st s :
  isContainerBoundaryID id (req_response s) = false ->
  isConstant instructionStarts (startInlineScript (req_response s)) = false ->
  forall idChunk origin, id = BoundaryID origin (Encoded idChunk) ->
  wp (writeClientRenderBoundaryInstruction id d m st) s
    (fun s' out r =>
       r = Some true
       /\ exists start args,
            out = (if scriptFormatOf (req_response s)
                   then [startInlineScript (req_response s)] else [])
                  ++ start :: Encoded idChunk :: args
            /\ start
               = (if scriptFormatOf (req_response s)
                  then if sentClientRenderFunction (req_response s)
                       then clientRenderScript1Partial
                       else clientRenderScript1Full
                  else clientRenderData1)
            /\ countConstant instructionStarts args = 0%nat).
Proof.
  intros Hc Hs idChunk origin ->.
  unfold writeClientRenderBoundaryInstruction.
  wp_step. wp_step. rewrite Hc. wp_step. wp_step.
  - (* script format *)
    wp_step. wp_step. wp_step.
    + wp_steps; cbn [req_response] in *;
        (split; [reflexivity|]);
        apply negb_true_iff in E0; rewrite E0;
        eexists _, _; (split; [cbn [app]; reflexivity|]);
        (split; [reflexivity|]); reflexivity.
    + wp_steps; cbn [req_response] in *;
        (split; [reflexivity|]);
        apply negb_false_iff in E0; rewrite E0;
        eexists _, _; (split; [cbn [app]; reflexivity|]);
        (split; [reflexivity|]); reflexivity.
  - wp_steps; cbn [req_response] in *;
      (split; [reflexivity|]);
      eexists _, _; (split; [cbn [app]; reflexivity|]);
      (split; [reflexivity|]); reflexivity.
Qed.

End ClientRender.

Lemma isConstant_app a b c :
  isConstant (a ++ b) c = isConstant a c || isConstant b c.
Proof. destruct c; [apply existsb_app|reflexivity]. Qed.

Lemma countConstant_app_names a b l :
  countConstant (a ++ b) l = 0%nat ->
  countConstant a l = 0%nat /\ countConstant b l = 0%nat.
Proof.
  induction l as [|c l IH]; [split; reflexivity|].
  rewrite !countConstant_cons, isConstant_app.
  destruct (isConstant a c), (isConstant b c); simpl; try discriminate.
  exact IH.
Qed.

Section ErroredBoundary.

Context `{Host}.


End ErroredBoundary.


(** The stream of the example above, as text. *)
Example errored_boundary_stream_example :
  let rs :=
    @createResponseState sampleHost None None None None None None None None
      None None None in
  textOf
    (outputOf
       (@writeErroredBoundary sampleHost
          (fst (assignSuspenseBoundaryID rs)) (Some (js "d")) None None
          [Encoded (js "loading")])
       {| req_response := snd (assignSuspenseBoundaryID rs);
          req_resources := createResources |})
  = js "<!--$!--><template data-dgst=" ++ dq ++ js "d" ++ dq
    ++ js "></template>loading<!--/$--><script>function $RX(){}$RX("
    ++ dq ++ js "B:0" ++ dq ++ js "," ++ dq ++ js "d" ++ dq ++ js ")</script>".
Proof. vm_compute. reflexivity. Qed.

(* ================================================================== *)
(** * One-shot helper functions *)
(* ================================================================== *)

Section Quiet.

Context `{Host}.

Lemma quiet_bind {A B} (m : W A) (f : A -> W B) :
  quiet m -> (forall a, quiet (f a)) -> quiet (m ≫= f).
Proof.
  intros Hm Hf s. apply wp_bind.
  eapply wp_mono; [|apply Hm]. intros s1 o1 [a|] [Hs1 Ho1]; cbv beta iota.
  - eapply wp_mono; [|apply Hf]. intros s2 o2 r2 [Hs2 Ho2]. cbv beta.
    split; [congruence|]. rewrite countConstant_app, Ho1, Ho2. reflexivity.
  - split; assumption.
Qed.

Lemma quiet_mret {A} (a : A) : quiet (mret a).
Proof. intros s. split; reflexivity. Qed.

Lemma quiet_throw {A} : quiet (@throw A).
Proof. intros s. split; reflexivity. Qed.

Lemma quiet_writeChunk c :
  isConstant trackedConstants c = false -> quiet (writeChunk c).
Proof.
  intros Hc s. split; [reflexivity|].
  rewrite countConstant_cons, Hc. reflexivity.
Qed.

Lemma quiet_writeChunkAndReturn c :
  isConstant trackedConstants c = false -> quiet (writeChunkAndReturn c).
Proof.
  intros Hc s. split; [reflexivity|].
  rewrite countConstant_cons, Hc. reflexivity.
Qed.

Lemma quiet_writeChunks cs :
  countConstant trackedConstants cs = 0%nat -> quiet (writeChunks cs).
Proof. intros Hc s. split; [reflexivity|exact Hc]. Qed.

Lemma quiet_getResources : quiet getResources.
Proof. intros s. split; reflexivity. Qed.

Lemma quiet_getResponse : quiet getResponse.
Proof. intros s. split; reflexivity. Qed.

Lemma quiet_modifyResources f : quiet (modifyResources f).
Proof. intros s. split; reflexivity. Qed.

Lemma quiet_orThrow {A} (o : option A) : quiet (orThrow o).
Proof. destruct o; [apply quiet_mret|apply quiet_throw]. Qed.

End Quiet.

(** Discharges [quiet] for straight-line code. *)
Ltac quiet_step :=
  lazymatch goal with
  | |- quiet (_ ≫= _) => apply quiet_bind; [|intros ?]
  | |- quiet (mret _) => apply quiet_mret
  | |- quiet throw => apply quiet_throw
  | |- quiet (writeChunk _) => apply quiet_writeChunk; reflexivity
  | |- quiet (writeChunkAndReturn _) =>
      apply quiet_writeChunkAndReturn; reflexivity
  | |- quiet getResources => apply quiet_getResources
  | |- quiet getResponse => apply quiet_getResponse
  | |- quiet (modifyResources _) => apply quiet_modifyResources
  | |- quiet (setFlushed _) => apply quiet_modifyResources
  | |- quiet (orThrow _) => apply quiet_orThrow
  | |- quiet (if ?b then _ else _) => destruct b
  | |- quiet (match ?x with _ => _ end) => destruct x
  end.

Ltac quiet_steps := repeat quiet_step.

Section OneShot.

Context `{Host}.

Lemma quiet_writeStyleResourceAttribute escape name value :
  quiet (writeStyleResourceAttribute escape name value).
Proof. unfold writeStyleResourceAttribute. quiet_steps. Qed.

Lemma quiet_writeStyleResourceDependency_props escape props :
  quiet (writeStyleResourceDependency_props escape props).
Proof.
  induction props as [|[propKey propValue] rest IH];
    cbn [writeStyleResourceDependency_props]; [apply quiet_mret|].
  apply quiet_bind; [|intros _; exact IH].
  quiet_steps. apply quiet_writeStyleResourceAttribute.
Qed.

Lemma quiet_writeStyleResourceDependencyEntry escape a first :
  quiet (writeStyleResourceDependencyEntry escape a first).
Proof.
  unfold writeStyleResourceDependencyEntry, writeStyleResourceDependency,
    writeStyleResourceDependencyHrefOnly.
  apply quiet_bind; [apply quiet_getResources|intros resources].
  destruct (heap resources !! a) as [[]|]; try apply quiet_mret.
  destruct first; quiet_steps;
    apply quiet_writeStyleResourceDependency_props.
Qed.

Lemma quiet_writeStyleResourceDependencyEntries escape l first :
  quiet (writeStyleResourceDependencyEntries escape l first).
Proof.
  revert first. induction l as [|a l IH]; intros first;
    cbn [writeStyleResourceDependencyEntries]; [apply quiet_mret|].
  apply quiet_bind; [apply quiet_writeStyleResourceDependencyEntry|].
  intros first'. apply IH.
Qed.

Lemma quiet_writeStyleResourceDependencies escape b :
  quiet (writeStyleResourceDependencies escape b).
Proof.
  unfold writeStyleResourceDependencies.
  apply quiet_bind; [quiet_step|intros _].
  apply quiet_bind; [quiet_step|intros resources].
  apply quiet_bind; [apply quiet_writeStyleResourceDependencyEntries|intros _].
  quiet_step.
Qed.

End OneShot.

Lemma isConstant_tracked n c :
  In n trackedConstants ->
  isConstant trackedConstants c = false -> isConstant [n] c = false.
Proof.
  intros Hn Hc. destruct c as [ident content|]; [|reflexivity].
  simpl in *. rewrite orb_false_r.
  destruct (String.eqb ident n) eqn:E; [|reflexivity].
  apply String.eqb_eq in E. subst ident.
  rewrite <- Hc. symmetry.
  unfold trackedConstants in Hn. simpl in Hn.
  repeat (destruct Hn as [<-|Hn]; [reflexivity|]). destruct Hn.
Qed.

Lemma countConstant_tracked n l :
  In n trackedConstants ->
  countConstant trackedConstants l = 0%nat -> countConstant [n] l = 0%nat.
Proof.
  intros Hn. induction l as [|c l IH]; [reflexivity|].
  rewrite !countConstant_cons.
  destruct (isConstant trackedConstants c) eqn:E; [discriminate|].
  rewrite (isConstant_tracked n c Hn E). exact IH.
Qed.

Lemma isConstant_shortOpener k c :
  isConstant trackedConstants c = false -> isConstant (shortOpener k) c = false.
Proof.
  intros Hc. destruct k; try (destruct c; reflexivity);
    apply isConstant_tracked; [|assumption| |assumption];
    unfold trackedConstants; simpl; tauto.
Qed.

Lemma countConstant_shortOpener k l :
  countConstant trackedConstants l = 0%nat ->
  countConstant (shortOpener k) l = 0%nat.
Proof.
  induction l as [|c l IH]; [reflexivity|].
  rewrite !countConstant_cons.
  destruct (isConstant trackedConstants c) eqn:E; [discriminate|].
  rewrite (isConstant_shortOpener k c E). exact IH.
Qed.

Lemma helperBody_tracked k : In (helperBody k) trackedConstants.
Proof. destruct k; unfold trackedConstants; simpl; tauto. Qed.

Lemma isConstant_helperBody k c :
  isConstant trackedConstants c = false -> isConstant [helperBody k] c = false.
Proof. apply isConstant_tracked, helperBody_tracked. Qed.

Lemma countConstant_helperBody k l :
  countConstant trackedConstants l = 0%nat ->
  countConstant [helperBody k] l = 0%nat.
Proof. apply countConstant_tracked, helperBody_tracked. Qed.

Lemma countConstant_nil names : countConstant names [] = 0%nat.
Proof. reflexivity. Qed.

Lemma countConstant_cons_zero names c l :
  countConstant names (c :: l) = 0%nat ->
  isConstant names c = false /\ countConstant names l = 0%nat.
Proof.
  rewrite countConstant_cons. destruct (isConstant names c); [discriminate|].
  intros Hl. split; [reflexivity|exact Hl].
Qed.

(** Normalizes the counts over an output assembled by [wp_steps]. *)
Ltac count_norm :=
  rewrite ?countConstant_app, ?countConstant_cons, ?countConstant_nil;
  repeat match goal with
         | Hc : isConstant trackedConstants ?c = false
           |- context [isConstant [helperBody ?k] ?c] =>
             rewrite (isConstant_helperBody k c Hc)
         | Hc : isConstant trackedConstants ?c = false
           |- context [isConstant (shortOpener ?k) ?c] =>
             rewrite (isConstant_shortOpener k c Hc)
         | Hc : countConstant trackedConstants ?l = 0%nat
           |- context [countConstant [helperBody ?k] ?l] =>
             rewrite (countConstant_helperBody k l Hc)
         | Hc : countConstant trackedConstants ?l = 0%nat
           |- context [countConstant (shortOpener ?k) ?l] =>
             rewrite (countConstant_shortOpener k l Hc)
         end.

Section Steps.

Context `{Host}.

Lemma writeCompletedSegmentInstruction_step id s :
  scriptResponse (req_response s) ->
  wp (writeCompletedSegmentInstruction id) s
    (fun s' out _ =>
       sameResponse (req_response s) (req_response s')
       /\ forall k, oneShotStep k (CompletedSegment id) s s' out).
Proof.
  intros (Hfmt & Hinline & Hseg & Hph & Hboot & Hfb).
  unfold writeCompletedSegmentInstruction.
  wp_step. wp_step. rewrite Hfmt.
  wp_step. wp_step. wp_step. wp_step.
  - wp_steps. cbn [req_response req_resources].
    split; [repeat split|].
    apply negb_true_iff in E.
    intros k. unfold oneShotStep. cbn [req_response].
    split; [|split];
      destruct k; cbn [sentFunction invokes andb orb negb]; rewrite ?E;
      count_norm; first [reflexivity|cbn; rewrite ?orb_false_r; reflexivity].
  - wp_steps. cbn [req_response req_resources].
    split; [repeat split|].
    apply negb_false_iff in E.
    intros k. unfold oneShotStep. cbn [req_response].
    split; [|split];
      destruct k; cbn [sentFunction invokes andb orb negb]; rewrite ?E;
      count_norm; first [reflexivity|cbn; rewrite ?orb_false_r; reflexivity].
Qed.

(** Finishes a leaf of the case analysis of a write. *)
Ltac one_shot_leaf :=
  cbn [req_response req_resources] in *;
  repeat match goal with
         | Hc : countConstant _ (_ :: _) = 0%nat |- _ =>
             apply countConstant_cons_zero in Hc; destruct Hc
         end;
  repeat match goal with
         | E : negb _ = true |- _ => apply negb_true_iff in E
         | E : negb _ = false |- _ => apply negb_false_iff in E
         end;
  repeat match goal with
         | E : ?f (?g true ?rs) = _ |- _ => progress cbn in E
         end;
  let k := fresh "k" in
  intros k; unfold oneShotStep; cbn [req_response req_resources];
  repeat match goal with
         | Hs : req_response ?s' = _ |- _ => rewrite Hs
         end;
  (split; [|split]);
  destruct k; cbn [sentFunction invokes assigned andb orb negb];
  repeat match goal with
         | E : _ = true |- _ => rewrite E
         | E : _ = false |- _ => rewrite E
         end;
  cbn [andb orb negb];
  count_norm;
  first [reflexivity
        |cbn; rewrite ?orb_false_r, ?orb_true_r; reflexivity
        |cbn; repeat match goal with
                     | E : _ = true |- _ => rewrite E
                     | E : _ = false |- _ => rewrite E
                     end; rewrite ?orb_false_r, ?orb_true_r; reflexivity].

Lemma writeClientRenderBoundaryInstruction_step id d m st s :
  scriptResponse (req_response s) ->
  encodedID id ->
  wp (writeClientRenderBoundaryInstruction id d m st) s
    (fun s' out _ =>
       sameResponse (req_response s) (req_response s')
       /\ forall k, oneShotStep k (ClientRenderBoundary id d m st) s s' out).
Proof.
  intros (Hfmt & Hinline & Hseg & Hph & Hboot & Hfb) Hid.
  unfold writeClientRenderBoundaryInstruction.
  wp_step. wp_step. rewrite Hfmt.
  wp_step.
  - (* the container: the bootstrap chunks *)
    wp_steps. split; [repeat split|].
    destruct (fallbackBootstrapChunks (req_response s)); one_shot_leaf.
  - wp_step. wp_step. wp_step. wp_step.
    + wp_step. wp_step. wp_step. wp_step. wp_step.
      * wp_steps. split; [repeat split|]. one_shot_leaf.
      * destruct Hid as [content ->].
        wp_steps; (split; [repeat split|]); one_shot_leaf.
    + wp_step. wp_step.
      * wp_steps. split; [repeat split|]. one_shot_leaf.
      * destruct Hid as [content ->].
        wp_steps; (split; [repeat split|]); one_shot_leaf.
Qed.

Lemma wp_quiet {A} (m : W A) s (Q : Request -> list Chunk -> option A -> Prop) :
  quiet m ->
  (forall s' out r,
      req_response s' = req_response s ->
      countConstant trackedConstants out = 0%nat -> Q s' out r) ->
  wp m s Q.
Proof.
  intros Hq HQ. eapply wp_mono; [|apply Hq].
  intros s' out r [Hs Ho]. apply HQ; assumption.
Qed.

Lemma writeCompletedBoundaryInstruction_step id contentID b s :
  scriptResponse (req_response s) ->
  encodedID id ->
  wp (writeCompletedBoundaryInstruction id contentID b) s
    (fun s' out _ =>
       sameResponse (req_response s) (req_response s')
       /\ forall k, oneShotStep k (CompletedBoundary id contentID b) s s' out).
Proof.
  intros (Hfmt & Hinline & Hseg & Hph & Hboot & Hfb) Hid.
  unfold writeCompletedBoundaryInstruction.
  destruct id as [|origin chunk].
  { wp_steps. split; [repeat split|]. one_shot_leaf. }
  destruct Hid as [content ->].
  wp_step. wp_step. wp_step. wp_step. rewrite Hfmt.
  change (enableFloat && ?x) with x.
  unfold writeOnce, writeBootstrapContainer,
    writeStyleResourceDependenciesInJS.
  wp_step.
  - (* style dependencies *)
    repeat first
      [ wp_step
      | apply wp_quiet;
        [apply quiet_writeStyleResourceDependencies
        |let s' := fresh "s'" in let Hs := fresh "Hs" in
         let Hq := fresh "Hq" in let r := fresh "r" in
         intros s' ? r Hs Hq; cbn [req_response] in Hs; destruct r ] ].
    all: (split; [rewrite ?Hs; repeat split|]).
    all: one_shot_leaf.
  - wp_steps.
    all: split; [repeat split|].
    all: one_shot_leaf.
Qed.

End Steps.

Section OneShotTrace.

Context `{Host}.

Lemma scriptResponse_later rs rs' :
  scriptResponse rs -> sameResponse rs rs' -> scriptResponse rs'.
Proof.
  intros (Hfmt & Hinline & Hseg & Hph & Hboot & Hfb)
         (Eb & Ef & _ & Ep & Es & _ & _ & _ & Esf & Ei & _).
  unfold scriptResponse, scriptFormatOf in *.
  rewrite Eb, Ef, Ep, Es, Esf, Ei. repeat split; assumption.
Qed.

Lemma writeInstruction_step i s :
  scriptResponse (req_response s) ->
  encodedID (instructionID i) ->
  wp (writeInstruction i) s
    (fun s' out _ =>
       scriptResponse (req_response s')
       /\ forall k, oneShotStep k i s s' out).
Proof.
  intros Hs Hid. destruct i as [id|id cid b|id d m st]; cbn [writeInstruction].
  - eapply wp_mono; [|apply writeCompletedSegmentInstruction_step, Hs].
    intros s' out r [Hsame Hk]. split; [|exact Hk].
    eapply scriptResponse_later; eassumption.
  - eapply wp_mono;
      [|apply writeCompletedBoundaryInstruction_step; [exact Hs|exact Hid]].
    intros s' out r [Hsame Hk]. split; [|exact Hk].
    eapply scriptResponse_later; eassumption.
  - eapply wp_mono;
      [|apply writeClientRenderBoundaryInstruction_step; [exact Hs|exact Hid]].
    intros s' out r [Hsame Hk]. split; [|exact Hk].
    eapply scriptResponse_later; eassumption.
Qed.

Lemma entryInvokes_entry k i s out :
  entryInvokes k (i, s, out) = invokes k i s.
Proof. reflexivity. Qed.

(** The entries of a list of writes, one by one. *)
Lemma writeInstructions_entries k instrs :
  Forall (fun i => encodedID (instructionID i)) instrs ->
  forall s0, scriptResponse (req_response s0) ->
  forall j i s out,
    writeInstructions instrs s0 !! j = Some (i, s, out) ->
    sentFunction k (req_response s)
    = sentFunction k (req_response s0)
      || existsb (entryInvokes k) (take j (writeInstructions instrs s0))
    /\ forall s', stateAfter (writeInstruction i) s = s' ->
         oneShotStep k i s s' out.
Proof.
  induction 1 as [|i0 instrs Hid _ IH]; intros s0 Hs0 j i s out Hj;
    [discriminate|].
  cbn [writeInstructions] in *.
  pose proof (writeInstruction_step i0 s0 Hs0 Hid) as Hstep.
  apply wp_run in Hstep. destruct Hstep as [Hs1 Hk].
  unfold stateAfter, outputOf in *.
  destruct (writeInstruction i0 s0) as [[s1 out0] r] eqn:Erun.
  cbn [fst snd] in *.
  destruct j as [|j].
  - assert (Hhead : (i0, s0, out0) = (i, s, out))
      by (destruct r; cbn in Hj; congruence).
    inversion Hhead; subst. cbn [take existsb].
    rewrite orb_false_r. split; [reflexivity|].
    intros s' <-. rewrite Erun. apply Hk.
  - destruct r as [b|]; [|destruct j; discriminate].
    cbn [lookup] in Hj. change ((?x :: ?l) !! S j) with (l !! j) in Hj.
    destruct (IH s1 Hs1 j i s out Hj) as [Hflag Hentry].
    split; [|exact Hentry].
    rewrite Hflag. cbn [take existsb]. rewrite entryInvokes_entry.
    destruct (Hk k) as (_ & _ & ->). rewrite orb_assoc. reflexivity.
Qed.

(** All the writes together. *)
Lemma writeInstructions_total k instrs :
  Forall (fun i => encodedID (instructionID i)) instrs ->
  forall s0, scriptResponse (req_response s0) ->
    countConstant [helperBody k] (writtenBy (writeInstructions instrs s0))
    = (if sentFunction k (req_response s0) then 0
       else if existsb (entryInvokes k) (writeInstructions instrs s0)
            then 1 else 0)%nat.
Proof.
  induction 1 as [|i0 instrs Hid _ IH]; intros s0 Hs0.
  - cbn. destruct (sentFunction k (req_response s0)); reflexivity.
  - cbn [writeInstructions].
    pose proof (writeInstruction_step i0 s0 Hs0 Hid) as Hstep.
    apply wp_run in Hstep. destruct Hstep as [Hs1 Hk].
    unfold stateAfter, outputOf in *.
    destruct (writeInstruction i0 s0) as [[s1 out0] r] eqn:Erun.
    cbn [fst snd] in *.
    destruct (Hk k) as (Hcount & _ & Hflag).
    destruct r as [b|].
    + unfold writtenBy in *. cbn [map concat existsb snd].
      rewrite countConstant_app, Hcount, (IH s1 Hs1), Hflag.
      rewrite entryInvokes_entry.
      destruct (sentFunction k (req_response s0)), (invokes k i0 s0);
        cbn [andb orb negb]; try reflexivity;
        destruct (existsb _ _); reflexivity.
    + unfold writtenBy. cbn [map concat existsb snd].
      rewrite app_nil_r, Hcount, entryInvokes_entry.
      destruct (sentFunction k (req_response s0)), (invokes k i0 s0);
        reflexivity.
Qed.

Lemma countConstant_flat_map {A} names (f : A -> list Chunk) l :
  (forall a, countConstant names (f a) = 0%nat) ->
  countConstant names (flat_map f l) = 0%nat.
Proof.
  intros Hf. induction l as [|a l IH]; [reflexivity|].
  cbn [flat_map]. rewrite countConstant_app, Hf, IH. reflexivity.
Qed.

Lemma bootstrapListChunks_untracked start scripts :
  isConstant trackedConstants start = false ->
  countConstant trackedConstants (bootstrapListChunks start scripts) = 0%nat.
Proof.
  intros Hstart. destruct scripts as [l|]; [|reflexivity].
  apply countConstant_flat_map. intros a. unfold bootstrapScriptChunks.
  rewrite !countConstant_app, !countConstant_cons, Hstart.
  destruct a as [s|[s [[|c i]|]]]; reflexivity.
Qed.

Lemma createResponseState_script
    identifierPrefix nonce bootstrapScriptContent bootstrapScripts
    bootstrapModules fallbackBootstrapScriptContent fallbackBootstrapScripts
    fallbackBootstrapModules containerID documentEmbedding :
  scriptResponse
    (createResponseState identifierPrefix nonce bootstrapScriptContent
       bootstrapScripts bootstrapModules fallbackBootstrapScriptContent
       fallbackBootstrapScripts fallbackBootstrapModules None containerID
       documentEmbedding).
Proof.
  assert (Hinline :
    isConstant trackedConstants
      match nonce with
      | None => startInlineScript_const
      | Some n =>
          stringToPrecomputedChunk
            (js "<script nonce=" ++ dq ++ escapeTextForBrowser n ++ dq ++ js ">")
      end = false) by (destruct nonce; reflexivity).
  assert (Hchunks : forall content scripts modules,
    countConstant trackedConstants
      (match content with
       | Some c =>
           [match nonce with
            | None => startInlineScript_const
            | Some n =>
                stringToPrecomputedChunk
                  (js "<script nonce=" ++ dq ++ escapeTextForBrowser n ++ dq
                   ++ js ">")
            end;
            stringToChunk (escapeBootstrapScriptContent c);
            endInlineScript]
       | None => []
       end
       ++ bootstrapListChunks startScriptSrc scripts
       ++ bootstrapListChunks startModuleSrc modules) = 0%nat).
  { intros content scripts modules.
    rewrite !countConstant_app,
      !bootstrapListChunks_untracked by reflexivity.
    destruct content; [|reflexivity].
    rewrite !countConstant_cons, Hinline. reflexivity. }
  unfold scriptResponse, createResponseState.
  cbn [startInlineScript segmentPrefix placeholderPrefix bootstrapChunks
       fallbackBootstrapChunks].
  split; [reflexivity|]. split; [exact Hinline|].
  split; [reflexivity|]. split; [reflexivity|].
  split; [apply Hchunks|].
  match goal with
  | |- match (match ?l with _ => _ end) with _ => _ end =>
      assert (Hl : countConstant trackedConstants l = 0%nat)
        by apply Hchunks;
      destruct l; [exact I|exact Hl]
  end.
Qed.


End OneShotTrace.


(* ================================================================== *)
(** * Preamble and postamble *)
(* ================================================================== *)


Section Preamble.

Context `{Host}.

Lemma writePostamble_output s :
  writePostamble s
  = (s,
     (if negb (N.land (flushed (req_response s)) BODY =? NONE)
      then [endTag1; stringToChunk (js "body"); endTag2] else [])
     ++ (if negb (N.land (flushed (req_response s)) HTML =? NONE)
         then [endTag1; stringToChunk (js "html"); endTag2] else []),
     Some tt).
Proof.
  apply wp_eq. unfold writePostamble. cbn [enableFloat].
  wp_steps; reflexivity.
Qed.


End Preamble.


